(** * Model-training stage: [src/model_training/train_model.py]

    A shallow embedding of the training script.  The script is sequential
    glue around four libraries (pandas / scikit-learn, Keras, MLflow and the
    file system), so the embedding is a state-and-exception monad over a
    [world] that holds

    - the process environment ([os.environ]),
    - the file system,
    - the Python heap (the hyperparameter dict and the dataframes are
      shared mutable objects, passed by reference),
    - the experiment tracker (runs, active-run stack),
    - the log of library calls, in program order.

    What a library computes internally (CSV and YAML parsing, numpy's sort
    order, the Keras training loop) is a parameter of the development. *)

From Stdlib Require Import ZArith QArith Ascii String.
From Stdlib Require Import Floats.SpecFloat.
From stdpp Require Import base option list sorting strings gmap fin_maps infinite.

Local Open Scope Z_scope.
Local Open Scope string_scope.

(** ** Python values *)

(** A Python [float] is an IEEE-754 binary64 number. *)
Definition float64 : Type := spec_float.

(** Scalars that occur in [params.yaml], in tags and in the Keras history. *)
Inductive pyval :=
| PBool (b : bool)
| PInt (z : Z)
| PFloat (f : float64)
| PStr (s : string).

(** A dataframe cell as [pd.read_csv] produces it. *)
Inductive cell :=
| CInt (z : Z)
| CFloat (f : float64)
| CStr (s : string).

Global Instance spec_float_eq_dec : EqDecision spec_float.
Proof. solve_decision. Defined.
Global Instance pyval_eq_dec : EqDecision pyval.
Proof. solve_decision. Defined.
Global Instance cell_eq_dec : EqDecision cell.
Proof. solve_decision. Defined.

(** ** Exceptions and results *)

Inductive exn :=
| FileNotFoundError (path : string)
| PermissionError (path : string)
| KeyError (key : string)
| IndexError
| ValueError (msg : string)
| OverflowError
| TypeError (msg : string)
| YAMLError (msg : string)
| MlflowException (msg : string)
| KerasError (msg : string).

Inductive result (A : Type) :=
| Ok (a : A)
| Raise (e : exn).
Arguments Ok {A} a.
Arguments Raise {A} e.

(** [float(x)]: the identity on floats, round-to-nearest-even on integers
    (an integer beyond the binary64 range raises), [ValueError] on the
    strings this development does not parse. *)
Definition float_of_int (z : Z) : float64 := binary_normalize 53 1024 z 0 false.

Definition py_float (v : pyval) : result float64 :=
  match v with
  | PFloat f => Ok f
  | PInt z =>
      match float_of_int z with
      | S754_infinity _ => Raise OverflowError
      | f => Ok f
      end
  | PBool b => Ok (float_of_int (if b then 1 else 0))
  | PStr s => Raise (ValueError s)
  end.

(** [str(v) == "True"], the comparison the tracker's tag filter makes. *)
Definition str_is_True (v : pyval) : bool :=
  match v with
  | PBool b => b
  | PStr s => bool_decide (s = "True")
  | _ => false
  end.

(** ** Dataframes and the one-hot encoder *)

(** Columns in order, each with its label. *)
Record DataFrame := mkDataFrame { df_columns : list (string * list cell) }.

Definition df_labels (df : DataFrame) : list string := (df_columns df).*1.

(** [df.shape[1]] *)
Definition df_shape1 (df : DataFrame) : Z := Z.of_nat (length (df_columns df)).

(** [df[label]]: the column of that label.  The labels of a frame that
    [read_csv] made are distinct, and the properties of [df[label]] below
    are stated for such frames. *)
Fixpoint assoc_lookup {A} (k : string) (l : list (string * A)) : option A :=
  match l with
  | [] => None
  | (k', a) :: l => if decide (k' = k) then Some a else assoc_lookup k l
  end.

Definition df_getitem (df : DataFrame) (label : string) : result (list cell) :=
  match assoc_lookup label (df_columns df) with
  | Some c => Ok c
  | None => Raise (KeyError label)
  end.

(** The frame [df.drop(label, axis=1)] holds: every column whose label
    differs, in order; [KeyError] when no column has the label. *)
Definition df_without (df : DataFrame) (label : string) : result DataFrame :=
  if decide (label ∈ df_labels df)
  then Ok (mkDataFrame (filter (λ c, c.1 ≠ label) (df_columns df)))
  else Raise (KeyError label).

(** A dense 2-D array, row by row.  The encoder's output holds only [0.0]
    and [1.0], written [0] and [1]. *)
Definition matrix : Type := list (list Z).

(** [y.shape[1]] *)
Definition matrix_shape1 (m : matrix) : Z :=
  match m with
  | [] => 0
  | r :: _ => Z.of_nat (length r)
  end.

(** [OneHotEncoder(sparse_output=False)]: [categories_] is [None] until
    the encoder is fitted; [enc_fits] counts the calls of [fit]. *)
Record OneHotEncoder := mkEncoder {
  enc_sparse_output : bool;
  enc_categories : option (list cell);
  enc_fits : nat;
}.

Definition new_encoder (sparse_output : bool) : OneHotEncoder :=
  mkEncoder sparse_output None 0.

Section Encoder.

(** numpy's order on the values of one column ([np.unique] sorts). *)
Variable cell_leb : cell → cell → bool.

Definition cell_le (a b : cell) : Prop := cell_leb a b = true.

#[local] Instance cell_le_dec a b : Decision (cell_le a b).
Proof. unfold cell_le. apply _. Defined.

(** [np.unique(col)]: the distinct values, sorted.  Two values are the
    same when they are the same integer or the same string, which is how
    Python compares class labels; the properties of the classes below are
    stated for integer and string labels. *)
Definition np_unique (col : list cell) : list cell :=
  merge_sort cell_le (remove_dups col).

(** The class labels of a target column: integers throughout, or
    strings throughout. *)
Definition is_int (c : cell) : bool := match c with CInt _ => true | _ => false end.
Definition is_str (c : cell) : bool := match c with CStr _ => true | _ => false end.
Definition class_labels (col : list cell) : bool :=
  forallb is_int col || forallb is_str col.

(** [enc.fit(col)]: scikit-learn checks its input first and rejects an
    array of no rows with a [ValueError]. *)
Definition no_samples : exn :=
  ValueError "Found array with 0 sample(s) while a minimum of 1 is required.".

Definition encoder_fit (enc : OneHotEncoder) (col : list cell) : result OneHotEncoder :=
  match col with
  | [] => Raise no_samples
  | _ => Ok (mkEncoder (enc_sparse_output enc) (Some (np_unique col)) (S (enc_fits enc)))
  end.

Definition one_hot_row (cats : list cell) (v : cell) : list Z :=
  map (λ c, if decide (v = c) then 1 else 0) cats.

(** [enc.transform(col)] *)
Definition encoder_transform (enc : OneHotEncoder) (col : list cell) : result matrix :=
  match enc_categories enc with
  | None => Raise (ValueError "This OneHotEncoder instance is not fitted yet.")
  | Some cats =>
      if decide (Forall (λ v, v ∈ cats) col)
      then Ok (map (one_hot_row cats) col)
      else Raise (ValueError "Found unknown categories")
  end.

(** [enc.fit_transform(col)]: fit, then transform with the fitted encoder. *)
Definition encoder_fit_transform (enc : OneHotEncoder) (col : list cell)
  : result (matrix * OneHotEncoder) :=
  match encoder_fit enc col with
  | Raise e => Raise e
  | Ok enc' =>
      match encoder_transform enc' col with
      | Ok m => Ok (m, enc')
      | Raise e => Raise e
      end
  end.

End Encoder.

(** ** Keras objects

    A layer, an optimizer and a callback are represented by the arguments
    of their constructors; a model by its layers, by the arguments of
    [compile] once compiled, and by its training history once fitted. *)

Inductive Layer :=
| Dense (units : pyval) (activation : string) (input_shape : option (list Z))
| Dropout (rate : pyval).

Inductive Optimizer :=
| Adam (learning_rate : pyval).

Record CompileArgs := mkCompile {
  c_optimizer : Optimizer;
  c_loss : string;
  c_metrics : list string;
}.

Record EarlyStopping := mkEarlyStopping {
  es_monitor : string;
  es_patience : Z;
  es_restore_best_weights : bool;
}.

Record FitArgs := mkFitArgs {
  fit_validation_split : Q;
  fit_epochs : pyval;
  fit_batch_size : pyval;
  fit_callbacks : list EarlyStopping;
}.

(** [History.history]: metric name to per-epoch values, in the dict's
    insertion order. *)
Definition History : Type := list (string * list pyval).

Record Model := mkModel {
  m_layers : list Layer;
  m_compiled : option CompileArgs;
  m_history : option History;
}.

(** [Sequential(layers)] *)
Definition Sequential (layers : list Layer) : Model := mkModel layers None None.

(** [model.compile(optimizer=..., loss=..., metrics=...)] *)
Definition model_compile (m : Model) (optimizer : Optimizer) (loss : string)
    (metrics : list string) : Model :=
  mkModel (m_layers m) (Some (mkCompile optimizer loss metrics)) (m_history m).

(** The calls into Keras that build a model.  Each of them checks its
    arguments and may reject them, [Dense] its [units], [Dropout] its
    [rate] and so on; which values are rejected, and with which exception,
    is the library's business. *)
Inductive keras_call :=
| Keras_layer (l : Layer)                       (* [Dense(...)], [Dropout(...)] *)
| Keras_Sequential (layers : list Layer)        (* [Sequential([...])] *)
| Keras_optimizer (o : Optimizer)               (* [Adam(learning_rate=...)] *)
| Keras_compile (m : Model) (c : CompileArgs).  (* [model.compile(...)] *)

(** ** Files *)

Inductive fobj :=
| FText (s : string)
| FKeras (m : Model)
| FJoblib (enc : OneHotEncoder)
| FJson (d : list (string * float64)) (indent : Z).

(** [os.path.join(a, b)] on POSIX, for two components. *)
Definition starts_with_slash (s : string) : bool :=
  match s with
  | String c _ => bool_decide (c = "/"%char)
  | EmptyString => false
  end.

Fixpoint ends_with_slash (s : string) : bool :=
  match s with
  | EmptyString => false
  | String c EmptyString => bool_decide (c = "/"%char)
  | String _ s => ends_with_slash s
  end.

Definition os_path_join (a b : string) : string :=
  if starts_with_slash b then b
  else if bool_decide (a = "") || ends_with_slash a then a ++ b
  else a ++ "/" ++ b.

(** ** The experiment tracker (MLflow) *)

Inductive RunStatus := RUNNING | FINISHED | FAILED.

Record Run := mkRun {
  run_id : string;
  run_experiment_id : string;
  run_start_time : Z;
  run_status : RunStatus;
  run_name : option string;
  run_parent : option string;      (* the tag [mlflow.parentRunId] *)
  run_tags : gmap string pyval;
  run_params : gmap string pyval;
  run_artifacts : list string;
}.

Record Tracker := mkTracker {
  t_runs : list Run;                (* the run store *)
  t_active : list string;           (* active-run stack, innermost first *)
  t_experiment : option string;     (* id of the experiment set active *)
  t_autolog : bool;
  t_clock : Z;                      (* the time the next run starts at *)
}.

(** The keyword arguments of [mlflow.start_run]; [None] is an argument
    that is not passed. *)
Record StartRunArgs := mkStartRunArgs {
  kw_parent_run_id : option string;
  kw_run_name : option string;
  kw_nested : option bool;
}.

(** [extra_args = {}] *)
Definition no_extra_args : StartRunArgs := mkStartRunArgs None None None.

Definition find_run (rid : string) (runs : list Run) : option Run :=
  list_find (λ r, run_id r = rid) runs ≫= λ p, Some p.2.

Definition update_run (rid : string) (f : Run → Run) (runs : list Run) : list Run :=
  map (λ r, if decide (run_id r = rid) then f r else r) runs.

Definition run_set_status (s : RunStatus) (r : Run) : Run :=
  mkRun (run_id r) (run_experiment_id r) (run_start_time r) s (run_name r)
        (run_parent r) (run_tags r) (run_params r) (run_artifacts r).

Definition run_set_tag (k : string) (v : pyval) (r : Run) : Run :=
  mkRun (run_id r) (run_experiment_id r) (run_start_time r) (run_status r)
        (run_name r) (run_parent r) (<[k:=v]> (run_tags r)) (run_params r)
        (run_artifacts r).

Definition run_log_params (ps : gmap string pyval) (r : Run) : Run :=
  mkRun (run_id r) (run_experiment_id r) (run_start_time r) (run_status r)
        (run_name r) (run_parent r) (run_tags r) (ps ∪ run_params r)
        (run_artifacts r).

Definition run_log_artifact (path : string) (r : Run) : Run :=
  mkRun (run_id r) (run_experiment_id r) (run_start_time r) (run_status r)
        (run_name r) (run_parent r) (run_tags r) (run_params r)
        (run_artifacts r ++ [path]).

(** [mlflow.search_runs(experiment_ids=ids, filter_string="tags.dvc_exp =
    'True'", order_by=["start_time DESC"])]: the runs of the listed
    experiments whose tag [dvc_exp] reads [True], latest start first.  An
    id that is [None] names no experiment. *)
Definition run_matches (ids : list (option string)) (r : Run) : Prop :=
  Some (run_experiment_id r) ∈ ids ∧
  ∃ v, run_tags r !! "dvc_exp" = Some v ∧ str_is_True v = true.

Global Instance run_matches_dec ids r : Decision (run_matches ids r).
Proof.
  unfold run_matches. apply and_dec; [apply _|].
  destruct (run_tags r !! "dvc_exp") as [v|].
  - destruct (str_is_True v) eqn:E.
    + left. eauto.
    + right. intros (v' & [= <-] & H). congruence.
  - right. intros (v' & [=] & _).
Defined.

Definition started_after (r1 r2 : Run) : Prop :=
  (run_start_time r2 ≤ run_start_time r1)%Z.

Global Instance started_after_dec r1 r2 : Decision (started_after r1 r2).
Proof. unfold started_after. apply _. Defined.

Definition search_dvc_runs (ids : list (option string)) (t : Tracker) : list Run :=
  merge_sort started_after (filter (run_matches ids) (t_runs t)).

(** [mlflow.start_run] with keyword arguments [kw].  Without [nested=True] an already active run
    is an error.  A [parent_run_id] must name a stored run and, when a run
    is active, that run.  The new run is created in the active experiment
    (["0"] when none was set), is given an unused id and becomes the
    innermost active run. *)
Definition tracker_start_run (kw : StartRunArgs) (t : Tracker) : result (Run * Tracker) :=
  if bool_decide (t_active t ≠ []) && negb (default false (kw_nested kw))
  then Raise (MlflowException "a run is already active")
  else
    let parent_ok :=
      match kw_parent_run_id kw with
      | None => true
      | Some p =>
          bool_decide (is_Some (find_run p (t_runs t))) &&
          bool_decide (head (t_active t) = None ∨ head (t_active t) = Some p)
      end in
    if negb parent_ok then Raise (MlflowException "invalid parent run")
    else
      let parent :=
        match kw_parent_run_id kw with
        | Some p => Some p
        | None => head (t_active t)
        end in
      let r := mkRun (fresh (run_id <$> t_runs t)) (default "0" (t_experiment t))
                     (t_clock t) RUNNING (kw_run_name kw) parent ∅ ∅ [] in
      Ok (r, mkTracker (t_runs t ++ [r]) (run_id r :: t_active t) (t_experiment t)
                       (t_autolog t) (t_clock t + 1)%Z).

(** [mlflow.end_run(status)]: the innermost active run is closed. *)
Definition tracker_end_run (s : RunStatus) (t : Tracker) : Tracker :=
  match t_active t with
  | [] => t
  | rid :: rest =>
      mkTracker (update_run rid (run_set_status s) (t_runs t)) rest
                (t_experiment t) (t_autolog t) (t_clock t)
  end.

(** The fluent logging calls act on the innermost active run and start one
    when none is active. *)
Definition tracker_active_run (t : Tracker) : result (string * Tracker) :=
  match t_active t with
  | rid :: _ => Ok (rid, t)
  | [] =>
      match tracker_start_run no_extra_args t with
      | Ok (r, t') => Ok (run_id r, t')
      | Raise e => Raise e
      end
  end.

Definition tracker_update_active (f : Run → Run) (t : Tracker) : result Tracker :=
  match tracker_active_run t with
  | Ok (rid, t') =>
      Ok (mkTracker (update_run rid f (t_runs t')) (t_active t') (t_experiment t')
                    (t_autolog t') (t_clock t'))
  | Raise e => Raise e
  end.

(** ** The world and the monad of the script *)

(** Heap objects: the two kinds of object the script shares by reference. *)
Inductive obj :=
| ODict (d : gmap string pyval)
| OFrame (df : DataFrame).

Definition loc : Type := positive.

(** Library calls, with their arguments, as the script makes them.
    [Call_create_model] records the entry into the script's own
    [create_model] with the mapping it finds behind its [params] argument. *)
Inductive call :=
| Call_logger_info (msg : string)
| Call_read_csv (path : string)
| Call_open (path : string) (mode : string)
| Call_yaml_safe_load
| Call_set_experiment (name : string)
| Call_autolog
| Call_search_runs (experiment_ids : list (option string)) (filter_string : string)
    (order_by : list string)
| Call_start_run (kw : StartRunArgs)
| Call_end_run (status : RunStatus)
| Call_set_tag (key : string) (value : pyval)
| Call_log_params (params : gmap string pyval)
| Call_log_artifact (path : string)
| Call_set_random_seed (seed : pyval)
| Call_encoder_fit (col : list cell)
| Call_create_model (input_shape num_classes : Z) (params : gmap string pyval)
| Call_fit (args : FitArgs)
| Call_model_save (path : string)
| Call_joblib_dump (path : string)
| Call_json_dump (indent : Z).

Record world := mkWorld {
  w_env : gmap string string;        (* os.environ *)
  w_files : gmap string fobj;        (* the files that exist, by path *)
  w_write_error : string → option exn; (* why a path cannot be written, if so *)
  w_heap : gmap loc obj;
  w_tracker : Tracker;
  w_seed : option Z;                 (* the global random seed *)
  w_calls : list call;               (* oldest first *)
}.

Definition set_files (f : gmap string fobj) (w : world) : world :=
  mkWorld (w_env w) f (w_write_error w) (w_heap w) (w_tracker w) (w_seed w) (w_calls w).
Definition set_heap (h : gmap loc obj) (w : world) : world :=
  mkWorld (w_env w) (w_files w) (w_write_error w) h (w_tracker w) (w_seed w) (w_calls w).
Definition set_tracker (t : Tracker) (w : world) : world :=
  mkWorld (w_env w) (w_files w) (w_write_error w) (w_heap w) t (w_seed w) (w_calls w).
Definition set_seed (s : option Z) (w : world) : world :=
  mkWorld (w_env w) (w_files w) (w_write_error w) (w_heap w) (w_tracker w) s (w_calls w).
Definition add_call (c : call) (w : world) : world :=
  mkWorld (w_env w) (w_files w) (w_write_error w) (w_heap w) (w_tracker w) (w_seed w)
          (w_calls w ++ [c]).

(** A computation either returns or raises, and leaves a world behind in
    both cases. *)
Definition M (A : Type) : Type := world → result A * world.

Global Instance M_ret : MRet M := λ A a w, (Ok a, w).

Global Instance M_bind : MBind M := λ A B f m w,
  match m w with
  | (Ok a, w') => f a w'
  | (Raise e, w') => (Raise e, w')
  end.

Definition raise {A} (e : exn) : M A := λ w, (Raise e, w).

Definition lift {A} (r : result A) : M A := λ w, (r, w).

(** Reading from the world, changing it. *)
Definition gets {A} (f : world → A) : M A := λ w, (Ok (f w), w).

Definition modify (f : world → world) : M unit := λ w, (Ok (), f w).

Definition log_call (c : call) : M unit := modify (add_call c).

(** [with enter as x: body]: the exit handler runs whether the body
    returns or raises (it is told which), and an exception of the body is
    raised again after it. *)
Definition with_ {A B} (enter : M A) (exit : bool → world → world) (body : A → M B)
  : M B := λ w,
  match enter w with
  | (Raise e, w1) => (Raise e, w1)
  | (Ok a, w1) =>
      match body a w1 with
      | (Ok b, w2) => (Ok b, exit false w2)
      | (Raise e, w2) => (Raise e, exit true w2)
      end
  end.

(** *** Built-ins, [os], [logging] *)

Definition os_getenv (k : string) : M (option string) := gets (λ w, w_env w !! k).

Definition logger_info (msg : string) : M unit := log_call (Call_logger_info msg).

(** [open(path, "r")] *)
Definition open_r (path : string) : M fobj :=
  log_call (Call_open path "r");;
  f ← gets (λ w, w_files w !! path);
  match f with
  | Some f => mret f
  | None => raise (FileNotFoundError path)
  end.

(** Creating or replacing the file at [path]. *)
Definition write_file (path : string) (f : fobj) : M unit :=
  err ← gets (λ w, w_write_error w path);
  match err with
  | Some e => raise e
  | None => modify (λ w, set_files (<[path:=f]> (w_files w)) w)
  end.

(** [open(path, "w")] creates the file or truncates it. *)
Definition open_w (path : string) : M string :=
  log_call (Call_open path "w");;
  write_file path (FText "");;
  mret path.

(** [json.dump(d, f, indent=indent)] on the file opened at [path]. *)
Definition json_dump (d : list (string * float64)) (path : string) (indent : Z) : M unit :=
  log_call (Call_json_dump indent);;
  modify (λ w, set_files (<[path:=FJson d indent]> (w_files w)) w).

(** [joblib.dump(enc, path)] *)
Definition joblib_dump (enc : OneHotEncoder) (path : string) : M unit :=
  log_call (Call_joblib_dump path);;
  write_file path (FJoblib enc).

(** *** The heap *)

Definition alloc (o : obj) : M loc :=
  l ← gets (λ w, fresh (dom (w_heap w)));
  modify (λ w, set_heap (<[l:=o]> (w_heap w)) w);;
  mret l.

Definition read_dict (l : loc) : M (gmap string pyval) :=
  o ← gets (λ w, w_heap w !! l);
  match o with
  | Some (ODict d) => mret d
  | _ => raise (TypeError "not a dict")
  end.

Definition read_frame (l : loc) : M DataFrame :=
  o ← gets (λ w, w_heap w !! l);
  match o with
  | Some (OFrame df) => mret df
  | _ => raise (TypeError "not a DataFrame")
  end.

(** [d[k]] *)
Definition dict_getitem (l : loc) (k : string) : M pyval :=
  d ← read_dict l;
  match d !! k with
  | Some v => mret v
  | None => raise (KeyError k)
  end.

(** [d.pop(k)]: removes the key from the dict object itself. *)
Definition dict_pop (l : loc) (k : string) : M pyval :=
  d ← read_dict l;
  match d !! k with
  | Some v => modify (λ w, set_heap (<[l:=ODict (delete k d)]> (w_heap w)) w);; mret v
  | None => raise (KeyError k)
  end.

(** [df.drop(label, axis=1)]: a new frame; [df] itself is not written. *)
Definition DataFrame_drop (l : loc) (label : string) : M loc :=
  df ← read_frame l;
  df' ← lift (df_without df label);
  alloc (OFrame df').

(** [df[label].values.reshape(-1, 1)]: the column, one value per row. *)
Definition DataFrame_column (l : loc) (label : string) : M (list cell) :=
  df ← read_frame l;
  lift (df_getitem df label).

(** *** MLflow *)

Definition tracker_call {A} (f : Tracker → result (A * Tracker)) : M A := λ w,
  match f (w_tracker w) with
  | Ok (a, t) => (Ok a, set_tracker t w)
  | Raise e => (Raise e, w)
  end.

Definition tracker_update (f : Run → Run) : M unit :=
  tracker_call (λ t, match tracker_update_active f t with
                     | Ok t' => Ok ((), t')
                     | Raise e => Raise e
                     end).

Definition mlflow_keras_autolog : M unit :=
  log_call Call_autolog;;
  tracker_call (λ t, Ok ((), mkTracker (t_runs t) (t_active t) (t_experiment t) true
                                       (t_clock t))).

Definition mlflow_start_run (kw : StartRunArgs) : M Run :=
  log_call (Call_start_run kw);;
  tracker_call (tracker_start_run kw).

(** [ActiveRun.__exit__]: the run ends [FINISHED], or [FAILED] when the
    body raised. *)
Definition mlflow_end_run (failed : bool) (w : world) : world :=
  let status := if failed then FAILED else FINISHED in
  set_tracker (tracker_end_run status (w_tracker w)) (add_call (Call_end_run status) w).

(** [with mlflow.start_run(...) as run: body] *)
Definition with_start_run {B} (kw : StartRunArgs) (body : Run → M B) : M B :=
  with_ (mlflow_start_run kw) mlflow_end_run body.

Definition mlflow_set_tag (key : string) (value : pyval) : M unit :=
  log_call (Call_set_tag key value);;
  tracker_update (run_set_tag key value).

(** [mlflow.log_params(d)] reads the dict behind [l] as it is now. *)
Definition mlflow_log_params (l : loc) : M unit :=
  d ← read_dict l;
  log_call (Call_log_params d);;
  tracker_update (run_log_params d).

(** [mlflow.log_artifact(path)]: the local file must exist. *)
Definition mlflow_log_artifact (path : string) : M unit :=
  log_call (Call_log_artifact path);;
  f ← gets (λ w, w_files w !! path);
  match f with
  | None => raise (FileNotFoundError path)
  | Some _ => tracker_update (run_log_artifact path)
  end.

(** [mlflow.search_runs], for the one query the script makes. *)
Definition mlflow_search_runs (experiment_ids : list (option string))
    (filter_string : string) (order_by : list string) : M (list Run) :=
  log_call (Call_search_runs experiment_ids filter_string order_by);;
  if bool_decide (filter_string = "tags.dvc_exp = 'True'" ∧ order_by = ["start_time DESC"])
  then gets (λ w, search_dvc_runs experiment_ids (w_tracker w))
  else raise (MlflowException "query not modelled").

(** [runs.iloc[0]] *)
Definition iloc0 (runs : list Run) : M Run :=
  match runs with
  | r :: _ => mret r
  | [] => raise IndexError
  end.

(** *** Keras *)

(** [tf.keras.utils.set_random_seed(seed)] takes an [int]. *)
Definition set_random_seed (seed : pyval) : M unit :=
  log_call (Call_set_random_seed seed);;
  match seed with
  | PInt z => modify (set_seed (Some z))
  | PBool b => modify (set_seed (Some (if b then 1 else 0)%Z))
  | _ => raise (ValueError "Expected `seed` argument to be an integer.")
  end.

(** [model.save(path)] *)
Definition model_save (m : Model) (path : string) : M unit :=
  log_call (Call_model_save path);;
  write_file path (FKeras m).

(** The dict comprehension [{metric: float(history.history[metric][-1])
    for metric in history.history}]. *)
Fixpoint final_metrics (h : History) : result (list (string * float64)) :=
  match h with
  | [] => Ok []
  | (metric, values) :: h' =>
      match last values with
      | None => Raise IndexError
      | Some v =>
          match py_float v with
          | Raise e => Raise e
          | Ok f =>
              match final_metrics h' with
              | Raise e => Raise e
              | Ok rest => Ok ((metric, f) :: rest)
              end
          end
      end
  end.

(** ** The script *)

Section Script.

(** What the libraries compute and the script only passes on. *)
Variable cell_leb : cell → cell → bool.
(** [pd.read_csv] on the content of a file *)
Variable read_csv_parse : fobj → result DataFrame.
(** [yaml.safe_load] on the content of a file that holds a mapping of
    stage names to the [dict[str, int | float]] of their settings, the
    shape the script's annotations assume *)
Variable yaml_safe_load : fobj → result (gmap string (gmap string pyval)).
(** the tracker's id for an experiment name (created when new) *)
Variable experiment_id_of : string → string.
(** the Keras training loop: seed, compiled model, features, targets and
    the arguments of [fit] to the history, or the exception it raises *)
Variable keras_fit :
  option Z → Model → DataFrame → matrix → FitArgs → result History.
(** the exception with which Keras rejects a call that builds the model,
    when it rejects it *)
Variable keras_check : keras_call → option exn.

Definition pd_read_csv (path : string) : M loc :=
  log_call (Call_read_csv path);;
  f ← gets (λ w, w_files w !! path);
  match f with
  | None => raise (FileNotFoundError path)
  | Some f => df ← lift (read_csv_parse f); alloc (OFrame df)
  end.

Definition mlflow_set_experiment (name : string) : M unit :=
  log_call (Call_set_experiment name);;
  tracker_call (λ t, Ok ((), mkTracker (t_runs t) (t_active t)
                                       (Some (experiment_id_of name)) (t_autolog t)
                                       (t_clock t))).

(** [encoder.fit_transform(col)] *)
Definition OneHotEncoder_fit_transform (enc : OneHotEncoder) (col : list cell)
  : M (matrix * OneHotEncoder) :=
  log_call (Call_encoder_fit col);;
  lift (encoder_fit_transform cell_leb enc col).

(** [model.fit(X, y, ...)]: the model keeps the history it returns. *)
Definition model_fit (m : Model) (X : loc) (y : matrix) (args : FitArgs)
  : M (Model * History) :=
  log_call (Call_fit args);;
  df ← read_frame X;
  seed ← gets w_seed;
  h ← lift (keras_fit seed m df y args);
  mret (mkModel (m_layers m) (m_compiled m) (Some h), h).

Definition load_data : M loc :=
  let train_path := "data/processed/train_processed.csv" in
  logger_info ("Loading feature data from " ++ train_path);;
  train_data ← pd_read_csv train_path;
  mret train_data.

Definition load_params : M loc :=
  params ← with_ (open_r "params.yaml") (λ _ w, w)
             (λ f, log_call Call_yaml_safe_load;; lift (yaml_safe_load f));
  match params !! "train" with
  | Some d => alloc (ODict d)
  | None => raise (KeyError "train")
  end.

Definition prepare_data (train_data : loc) : M (loc * matrix * OneHotEncoder) :=
  (* Separate features and target for train data *)
  X_train ← DataFrame_drop train_data "target";
  y_train ← DataFrame_column train_data "target";
  (* One-hot encode the target variable *)
  let encoder := new_encoder false in
  '(y_train_encoded, encoder) ← OneHotEncoder_fit_transform encoder y_train;
  mret (X_train, y_train_encoded, encoder).

(** A call into Keras that builds the model: it raises when Keras
    rejects the arguments. *)
Definition keras (c : keras_call) : M unit :=
  match keras_check c with
  | Some e => raise e
  | None => mret ()
  end.

Definition new_layer (l : Layer) : M Layer := keras (Keras_layer l);; mret l.

Definition new_Sequential (layers : list Layer) : M Model :=
  keras (Keras_Sequential layers);; mret (Sequential layers).

Definition new_optimizer (o : Optimizer) : M Optimizer :=
  keras (Keras_optimizer o);; mret o.

Definition compile (m : Model) (optimizer : Optimizer) (loss : string)
    (metrics : list string) : M Model :=
  keras (Keras_compile m (mkCompile optimizer loss metrics));;
  mret (model_compile m optimizer loss metrics).

(** The elements of the list of layers are evaluated in order, each
    setting read right before the layer it goes to is built. *)
Definition create_model (input_shape num_classes : Z) (params : loc) : M Model :=
  d ← read_dict params;
  log_call (Call_create_model input_shape num_classes d);;
  units1 ← dict_getitem params "hidden_layer_1_neurons";
  hidden1 ← new_layer (Dense units1 "relu" (Some [input_shape]));
  rate1 ← dict_getitem params "dropout_rate";
  dropout1 ← new_layer (Dropout rate1);
  units2 ← dict_getitem params "hidden_layer_2_neurons";
  hidden2 ← new_layer (Dense units2 "relu" None);
  rate2 ← dict_getitem params "dropout_rate";
  dropout2 ← new_layer (Dropout rate2);
  output ← new_layer (Dense (PInt num_classes) "softmax" None);
  model ← new_Sequential [hidden1; dropout1; hidden2; dropout2; output];
  learning_rate ← dict_getitem params "learning_rate";
  optimizer ← new_optimizer (Adam learning_rate);
  compile model optimizer "categorical_crossentropy" ["accuracy"].

Definition save_training_artifacts (model : Model) (encoder : OneHotEncoder) : M unit :=
  let artifacts_dir := "artifacts" in
  let models_dir := "models" in
  let model_path := os_path_join models_dir "model.keras" in
  let encoder_path := os_path_join artifacts_dir "[target]_one_hot_encoder.joblib" in
  (* Save the model *)
  logger_info ("Saving model to " ++ model_path);;
  model_save model model_path;;
  (* Save the encoder for inference *)
  logger_info ("Saving encoder to " ++ encoder_path);;
  joblib_dump encoder encoder_path.

(** The statements of [train_model] before its last [with]: they end in
    the keyword arguments of the training run. *)
Definition dvc_run_args : M StartRunArgs :=
  dvc_exp_name ← os_getenv "DVC_EXP_NAME";
  let is_experiment := bool_decide (dvc_exp_name ≠ None) in
  let extra_args := no_extra_args in
  if is_experiment then
    experiment_id ← os_getenv "MLFLOW_EXPERIMENT_ID";
    runs ← mlflow_search_runs [experiment_id] "tags.dvc_exp = 'True'" ["start_time DESC"];
    parent_run_id ←
      (if bool_decide (runs = []) then
         with_start_run no_extra_args (λ parent_run,
           mlflow_set_tag "dvc_exp" (PBool true);;
           mret (run_id parent_run))
       else
         r ← iloc0 runs; mret (run_id r));
    run_name ← os_getenv "DVC_EXP_NAME";
    mret (mkStartRunArgs (Some parent_run_id) run_name (Some true))
  else mret extra_args.

(** The body of the training run. *)
Definition training_run (train_data params : loc) : M unit :=
  (* Log parameters to MLflow *)
  mlflow_log_params params;;
  seed ← dict_pop params "random_seed";
  set_random_seed seed;;
  (* Log preprocessing artifacts *)
  mlflow_log_artifact "artifacts/[features]_mean_imputer.joblib";;
  mlflow_log_artifact "artifacts/[features]_scaler.joblib";;
  (* Prepare the data *)
  '(X_train, y_train, encoder) ← prepare_data train_data;
  (* Create the model *)
  X ← read_frame X_train;
  model ← create_model (df_shape1 X) (matrix_shape1 y_train) params;
  (* Early stopping to prevent overfitting *)
  let early_stopping := mkEarlyStopping "val_loss" 10 true in
  (* Train the model with validation split *)
  logger_info "Training model...";;
  epochs ← dict_getitem params "epochs";
  batch_size ← dict_getitem params "batch_size";
  '(model, history) ←
    model_fit model X_train y_train (mkFitArgs 0.2 epochs batch_size [early_stopping]);
  save_training_artifacts model encoder;;
  (* Log the encoder *)
  mlflow_log_artifact "artifacts/[target]_one_hot_encoder.joblib";;
  (* Save training metrics to a file *)
  metrics ← lift (final_metrics history);
  let metrics_path := "metrics/training.json" in
  with_ (open_w metrics_path) (λ _ w, w) (λ f, json_dump metrics f 2).

Definition train_model (train_data params : loc) : M unit :=
  (* Set up MLflow experiment *)
  mlflow_set_experiment "ml_classification";;
  (* Set up Keras autolog *)
  mlflow_keras_autolog;;
  (* Setting MLflow if we are running a DVC experiment *)
  extra_args ← dvc_run_args;
  with_start_run extra_args (λ _, training_run train_data params).

Definition main : M unit :=
  train_data ← load_data;
  params ← load_params;
  train_model train_data params;;
  logger_info "Model training completed".

End Script.

(** ** A concrete run

    A three-row training table with two classes, the hyperparameters of a
    [params.yaml], and stand-ins for the libraries; the world of a fresh
    process in a checkout that holds the inputs of the stage.  Floats are
    written as binary64 numbers, a mantissa of 53 bits and its exponent:
    [0.25] is [4503599627370496 * 2^-54]. *)

Definition sample_leb (a b : cell) : bool :=
  match a, b with
  | CInt x, CInt y => (x <=? y)%Z
  | _, _ => true
  end.

Definition sample_frame : DataFrame :=
  mkDataFrame [ ("f1", [CInt 1; CInt 2; CInt 3]);
                ("target", [CInt 7; CInt 5; CInt 7]);
                ("f2", [CInt 0; CInt 0; CInt 1]) ].

Definition sample_params : gmap string pyval :=
  list_to_map [ ("hidden_layer_1_neurons", PInt 64);
                ("hidden_layer_2_neurons", PInt 32);
                ("dropout_rate", PFloat (S754_finite false 4503599627370496 (-54)));
                ("learning_rate", PFloat (S754_finite false 4503599627370496 (-62)));
                ("batch_size", PInt 32);
                ("epochs", PInt 5);
                ("random_seed", PInt 42) ].

Definition sample_read_csv (f : fobj) : result DataFrame :=
  match f with
  | FText _ => Ok sample_frame
  | _ => Raise (ValueError "not a text file")
  end.

Definition sample_yaml (f : fobj) : result (gmap string (gmap string pyval)) :=
  match f with
  | FText _ => Ok {[ "train" := sample_params ]}
  | _ => Raise (YAMLError "not a text file")
  end.

Definition sample_experiment_id (name : string) : string := "1".

Definition sample_history : History :=
  [ ("loss", [PFloat (S754_finite false 6755399441055744 (-52));
              PFloat (S754_finite false 4503599627370496 (-53))]);
    ("accuracy", [PInt 0; PInt 1]) ].

Definition sample_fit (seed : option Z) (m : Model) (X : DataFrame) (y : matrix)
    (args : FitArgs) : result History :=
  Ok sample_history.

(** Two of the checks Keras makes: [Dense] rejects a negative number of
    units, [Dropout] a rate outside the interval from 0 to 1. *)
Definition sample_keras_check (c : keras_call) : option exn :=
  match c with
  | Keras_layer (Dense (PInt units) _ _) =>
      if decide (units < 0)%Z
      then Some (ValueError "Received an invalid value for `units`, expected a positive integer.")
      else None
  | Keras_layer (Dropout (PFloat rate)) =>
      if SFleb (float_of_int 0) rate && SFleb rate (float_of_int 1)
      then None
      else Some (ValueError "Invalid value received for argument `rate`.")
  | _ => None
  end.

Definition sample_files : gmap string fobj :=
  list_to_map [ ("data/processed/train_processed.csv", FText "f1,target,f2");
                ("params.yaml", FText "train:");
                ("artifacts/[features]_mean_imputer.joblib", FText "imputer");
                ("artifacts/[features]_scaler.joblib", FText "scaler") ].

Definition sample_tracker : Tracker := mkTracker [] [] None false 0.

Definition sample_world (env : gmap string string) : world :=
  mkWorld env sample_files (λ _, None) ∅ sample_tracker None [].

(** The same process after [load_data] and [load_params]: the frame is
    object 1 and the hyperparameter dict object 2. *)
Definition sample_loaded (env : gmap string string) : world :=
  mkWorld env sample_files (λ _, None)
          (<[2%positive:=ODict sample_params]> (<[1%positive:=OFrame sample_frame]> ∅))
          sample_tracker None [].

(** A tracker that already holds two parent runs of experiment ["7"]. *)
Definition sample_parent (rid : string) (start : Z) : Run :=
  mkRun rid "7" start FINISHED None None {[ "dvc_exp" := PBool true ]} ∅ [].

Definition sample_tracker_with_parents : Tracker :=
  mkTracker [sample_parent "a" 10; sample_parent "b" 20] [] None false 30.

Definition sample_loaded_with_parents (env : gmap string string) : world :=
  mkWorld env sample_files (λ _, None)
          (<[2%positive:=ODict sample_params]> (<[1%positive:=OFrame sample_frame]> ∅))
          sample_tracker_with_parents None [].

(** [train_model(train_data, params)] of the concrete run. *)
Definition sample_train_model (w : world) : result unit * world :=
  train_model sample_leb sample_experiment_id sample_fit sample_keras_check 1%positive 2%positive w.

(** [main()] of the concrete run. *)
Definition sample_main (w : world) : result unit * world :=
  main sample_leb sample_read_csv sample_yaml sample_experiment_id sample_fit sample_keras_check w.

(** The environment of a DVC experiment. *)
Definition sample_dvc_env : gmap string string :=
  list_to_map [ ("DVC_EXP_NAME", "exp-1"); ("MLFLOW_EXPERIMENT_ID", "7") ].

(** A training loop that rejects its input. *)
Definition sample_fit_raises (seed : option Z) (m : Model) (X : DataFrame) (y : matrix)
    (args : FitArgs) : result History :=
  Raise (ValueError "Shapes are incompatible").

(** What Keras raises at the first of a sequence of calls that it
    rejects, if it rejects any. *)
Fixpoint first_rejected (keras_check : keras_call → option exn)
    (calls : list keras_call) : option exn :=
  match calls with
  | [] => None
  | c :: calls =>
      match keras_check c with
      | Some e => Some e
      | None => first_rejected keras_check calls
      end
  end.

(** The paths of the write calls in a call log, in order. *)
Definition written_path (c : call) : option string :=
  match c with
  | Call_model_save p => Some p
  | Call_joblib_dump p => Some p
  | Call_open p mode => if bool_decide (mode = "w") then Some p else None
  | _ => None
  end.

Definition written_paths (cs : list call) : list string := omap written_path cs.

(** The keyword arguments of the [start_run] calls in a call log, in order. *)
Definition start_run_call (c : call) : option StartRunArgs :=
  match c with
  | Call_start_run kw => Some kw
  | _ => None
  end.

Definition start_run_calls (cs : list call) : list StartRunArgs := omap start_run_call cs.

(** The entries into [create_model] in a call log: the arguments and the
    mapping found behind [params]. *)
Definition create_model_call (c : call) : option (Z * Z * gmap string pyval) :=
  match c with
  | Call_create_model input_shape num_classes d => Some (input_shape, num_classes, d)
  | _ => None
  end.

Definition create_model_calls (cs : list call) : list (Z * Z * gmap string pyval) :=
  omap create_model_call cs.

(** Calls that reach the tracker only. *)
Definition tracker_only (c : call) : bool :=
  match c with
  | Call_set_experiment _ | Call_autolog | Call_search_runs _ _ _
  | Call_start_run _ | Call_end_run _ | Call_set_tag _ _ => true
  | _ => false
  end.

(** [w'] differs from [w] in the tracker and by tracker calls at most. *)
Definition tracker_frame (w w' : world) : Prop :=
  w_env w' = w_env w ∧ w_files w' = w_files w ∧
  w_write_error w' = w_write_error w ∧ w_heap w' = w_heap w ∧
  w_seed w' = w_seed w ∧
  ∃ new, w_calls w' = (w_calls w ++ new)%list ∧ forallb tracker_only new = true.

(** The calls of a log other than those that manage experiments and
    runs. *)
Definition training_calls (cs : list call) : list call :=
  filter (λ c, tracker_only c = false) cs.

(** The calls the body of the training run makes when nothing fails, in
    the order of its statements: [d] is the dict as passed, [col] the
    target column, [input_shape] and [num_classes] the arguments of
    [create_model]. *)
Definition training_run_calls (d : gmap string pyval) (seed : pyval) (col : list cell)
    (input_shape num_classes : Z) (epochs batch_size : pyval) : list call :=
  [ Call_log_params d;
    Call_set_random_seed seed;
    Call_log_artifact "artifacts/[features]_mean_imputer.joblib";
    Call_log_artifact "artifacts/[features]_scaler.joblib";
    Call_encoder_fit col;
    Call_create_model input_shape num_classes (delete "random_seed" d);
    Call_logger_info "Training model...";
    Call_fit (mkFitArgs 0.2 epochs batch_size [mkEarlyStopping "val_loss" 10 true]);
    Call_logger_info "Saving model to models/model.keras";
    Call_model_save "models/model.keras";
    Call_logger_info "Saving encoder to artifacts/[target]_one_hot_encoder.joblib";
    Call_joblib_dump "artifacts/[target]_one_hot_encoder.joblib";
    Call_log_artifact "artifacts/[target]_one_hot_encoder.joblib";
    Call_open "metrics/training.json" "w";
    Call_json_dump 2 ].

(** What a run of the training code does to the file system, from [w] to
    the result [r] in [w']: the write calls made are the first ones of
    three, nothing else changes, and after a return the three files hold the
    fitted model, the encoder and the metrics of the history that
    [keras_fit] returned. *)
Definition writes_training_files
    (keras_fit : option Z → Model → DataFrame → matrix → FitArgs → result History)
    (w : world) (r : result unit) (w' : world) : Prop :=
  ∃ new : list call,
    w_calls w' = (w_calls w ++ new)%list ∧
    written_paths new `prefix_of`
      ["models/model.keras"; "artifacts/[target]_one_hot_encoder.joblib";
       "metrics/training.json"] ∧
    (∀ p, p ∉ written_paths new → w_files w' !! p = w_files w !! p) ∧
    match r with
    | Raise _ => True
    | Ok _ =>
        written_paths new =
          ["models/model.keras"; "artifacts/[target]_one_hot_encoder.joblib";
           "metrics/training.json"] ∧
        ∃ (seed : option Z) (model : Model) (X : DataFrame) (y : matrix)
          (epochs batch_size : pyval) (history : History)
          (metrics : list (string * float64)) (encoder : OneHotEncoder),
          keras_fit seed model X y
            (mkFitArgs 0.2 epochs batch_size [mkEarlyStopping "val_loss" 10 true]) =
            Ok history ∧
          final_metrics history = Ok metrics ∧
          w_files w' =
            <["metrics/training.json" := FJson metrics 2]>
              (<["metrics/training.json" := FText ""]>
                 (<["artifacts/[target]_one_hot_encoder.joblib" := FJoblib encoder]>
                    (<["models/model.keras" :=
                         FKeras (mkModel (m_layers model) (m_compiled model)
                                         (Some history))]>
                       (w_files w))))
    end.

(** * Properties *)

(** ** Reasoning about computations

    [wp m Q w]: running [m] from [w] ends, by return or by exception, in a
    result and a world that satisfy [Q]. *)

Definition wp {A} (m : M A) (Q : result A → world → Prop) (w : world) : Prop :=
  Q (m w).1 (m w).2.

Definition raised {A} (r : result A) : bool :=
  match r with
  | Ok _ => false
  | Raise _ => true
  end.

(** [m], run in [w], raises [e] and leaves [w'], or it returns and [k]
    holds of what it returned and of the world it left. *)
Definition raises_or {A} (m : M A) (e : exn) (w' : world)
    (k : A → world → Prop) (w : world) : Prop :=
  m w = (Raise e, w') ∨ ∃ a w1, m w = (Ok a, w1) ∧ k a w1.

Lemma wp_bind {A B} (m : M A) (f : A → M B) (Q : result B → world → Prop) w :
  wp m (λ r w1, match r with
                | Ok a => wp (f a) Q w1
                | Raise e => Q (Raise e) w1
                end) w →
  wp (m ≫= f) Q w.
Proof.
  unfold wp, mbind, M_bind. destruct (m w) as [[a|e] w1]; simpl; auto.
Qed.

Lemma wp_ret {B} (b : B) (Q : result B → world → Prop) w :
  Q (Ok b) w → wp (mret b) Q w.
Proof. done. Qed.

Lemma wp_raise {B} e (Q : result B → world → Prop) w :
  Q (Raise e) w → wp (raise e) Q w.
Proof. done. Qed.

Lemma wp_lift {B} (r : result B) (Q : result B → world → Prop) w :
  Q r w → wp (lift r) Q w.
Proof. done. Qed.

Lemma wp_gets {B} (f : world → B) (Q : result B → world → Prop) w :
  Q (Ok (f w)) w → wp (gets f) Q w.
Proof. done. Qed.

Lemma wp_modify (f : world → world) (Q : result () → world → Prop) w :
  Q (Ok ()) (f w) → wp (modify f) Q w.
Proof. done. Qed.

Lemma wp_with {A B} (enter : M A) exit (body : A → M B)
    (Q : result B → world → Prop) w :
  wp enter (λ r w1, match r with
                    | Ok a => wp (body a) (λ r2 w2, Q r2 (exit (raised r2) w2)) w1
                    | Raise e => Q (Raise e) w1
                    end) w →
  wp (with_ enter exit body) Q w.
Proof.
  unfold wp, with_. destruct (enter w) as [[a|e] w1]; simpl; auto.
  destruct (body a w1) as [[b|e] w2]; simpl; auto.
Qed.

Lemma wp_tracker_call {B} (f : Tracker → result (B * Tracker))
    (Q : result B → world → Prop) w :
  match f (w_tracker w) with
  | Ok (b, t) => Q (Ok b) (set_tracker t w)
  | Raise e => Q (Raise e) w
  end →
  wp (tracker_call f) Q w.
Proof. unfold wp, tracker_call. by destruct (f (w_tracker w)) as [[b t]|e]. Qed.

(** A fresh location is one the heap does not hold. *)
Lemma wp_alloc (o : obj) (Q : result loc → world → Prop) w :
  (∀ l, w_heap w !! l = None → Q (Ok l) (set_heap (<[l:=o]> (w_heap w)) w)) →
  wp (alloc o) Q w.
Proof.
  intros H. unfold wp, alloc, mbind, M_bind, gets, modify, mret, M_ret. simpl.
  apply H, not_elem_of_dom, is_fresh.
Qed.

Lemma wp_mono {A} (m : M A) (Q Q' : result A → world → Prop) w :
  (∀ r w', Q r w' → Q' r w') → wp m Q w → wp m Q' w.
Proof. unfold wp. auto. Qed.

Lemma wp_run {A} (m : M A) (Q : result A → world → Prop) w r w' :
  wp m Q w → m w = (r, w') → Q r w'.
Proof. unfold wp. intros H E. by rewrite E in H. Qed.

Lemma wp_same_world {A} (m : M A) (Q : result A → world → Prop) w w' :
  wp m Q w' →
  w_env w = w_env w' → w_files w = w_files w' → w_write_error w = w_write_error w' →
  w_heap w = w_heap w' → w_tracker w = w_tracker w' → w_seed w = w_seed w' →
  w_calls w = w_calls w' →
  wp m Q w.
Proof. destruct w, w'. simpl. by intros H -> -> -> -> -> -> ->. Qed.

Lemma wp_eq {A} (m : M A) w r w' :
  wp m (λ r0 w0, r0 = r ∧ w0 = w') w → m w = (r, w').
Proof. unfold wp. destruct (m w). simpl. by intros [-> ->]. Qed.

(** Symbolic execution: one statement at a time, a case split where the
    program branches on something the context does not determine. *)

Ltac head_of t :=
  lazymatch t with
  | ?f _ => head_of f
  | _ => t
  end.

Ltac wsimpl :=
  cbn [w_env w_files w_write_error w_heap w_tracker w_seed w_calls
       set_files set_heap set_tracker set_seed add_call mlflow_end_run
       t_runs t_active t_experiment t_autolog t_clock fst snd raised].

Ltac solve_ne :=
  first
    [ done
    | congruence
    | let E := fresh in
      intros E; subst;
      repeat match goal with
             | H : <[_:=_]> _ !! _ = None |- _ => rewrite lookup_insert_eq in H
             end;
      congruence ].

Ltac rewrite_hyp x :=
  match goal with
  | H : x = _ |- _ => rewrite H
  end.

Ltac simpl_scrutinee x :=
  lazymatch x with
  | <[_:=_]> _ !! _ =>
      first [ rewrite lookup_insert_eq | rewrite lookup_insert_ne by solve_ne ]
  end.

Ltac case_on x := first [ rewrite_hyp x | simpl_scrutinee x | destruct x eqn:? ].

Ltac wp_head m :=
  lazymatch m with
  | mbind _ _ => apply wp_bind
  | mret _ => apply wp_ret
  | raise _ => apply wp_raise
  | lift _ => apply wp_lift
  | gets _ => apply wp_gets
  | modify _ => apply wp_modify
  | with_ _ _ _ => apply wp_with
  | tracker_call _ => apply wp_tracker_call
  | alloc _ => apply wp_alloc; wsimpl; intros ? ?
  | match ?x with _ => _ end => case_on x
  | ?f => let h := head_of f in unfold h
  end.

Ltac wp_step :=
  wsimpl;
  lazymatch goal with
  | |- wp ?m _ _ => wp_head m
  | |- match ?x with Ok _ => _ | Raise _ => _ end => case_on x
  | |- match ?x with (_, _) => _ end => case_on x
  end.

Ltac wp_steps := repeat wp_step; wsimpl.

(** The statements of the script, down to the primitives of the monad. *)
Ltac unfold_script :=
  unfold train_model, dvc_run_args, training_run, with_start_run,
    save_training_artifacts, prepare_data, create_model, model_fit,
    mlflow_set_experiment, mlflow_keras_autolog, mlflow_start_run, mlflow_set_tag,
    mlflow_log_params, mlflow_log_artifact, mlflow_search_runs, iloc0,
    set_random_seed, model_save, joblib_dump, open_w, json_dump, write_file,
    os_getenv, logger_info, log_call, tracker_update,
    DataFrame_drop, DataFrame_column, OneHotEncoder_fit_transform,
    dict_getitem, dict_pop, read_dict, read_frame.

(** A call log that only grew: the new calls, then what is asked of them. *)
Ltac new_calls :=
  eexists; split;
  [ first [ rewrite <- ?app_assoc; reflexivity | symmetry; apply app_nil_r ] | cbn ].

(** What a frame lemma leaves to prove at the end of a path. *)
Ltac solve_frame :=
  unfold tracker_frame; wsimpl; split_and!; try done; new_calls; reflexivity.

(** A file system that changed at the listed paths only. *)
Ltac solve_files_frame :=
  let p := fresh "p" in
  let Hp := fresh "Hp" in
  intros p Hp;
  rewrite ?lookup_insert_ne; [reflexivity|intros <-; apply Hp; repeat constructor..].

(** Steps up to the training run or to a [start_run] the context does
    not decide. *)
Ltac top_simpl :=
  wsimpl;
  cbn [tracker_update_active tracker_active_run tracker_end_run t_active t_runs
       t_experiment t_autolog t_clock].

Ltac top_step :=
  top_simpl;
  lazymatch goal with
  | |- wp (training_run _ _ _ _ _) _ _ => fail
  | |- match tracker_start_run ?kw ?t with _ => _ end =>
      rewrite_hyp (tracker_start_run kw t)
  | _ => wp_step
  end.

(** The world at the end of a path, field by field. *)
Ltac close_top H :=
  eapply wp_same_world; [exact H|..]; top_simpl;
  cbn [run_set_status run_set_tag run_id run_experiment_id run_start_time run_status
       run_name run_parent run_tags run_params run_artifacts
       kw_run_name kw_parent_run_id kw_nested];
  rewrite <- ?app_assoc; reflexivity.

(** Steps through the body of a run: the logging calls act on the active
    run the context shows. *)
Ltac run_steps := repeat (top_simpl; wp_step); top_simpl.

(** Where an exception comes from: out of the first statement of a
    sequence that raises, past the exit of a [with] block. *)

Lemma bind_raises {A B} (m : M A) (f : A → M B) (e : exn) (w w' : world) :
  (m ≫= f) w = (Raise e, w') ↔ raises_or m e w' (λ a w1, f a w1 = (Raise e, w')) w.
Proof.
  unfold mbind, M_bind, raises_or. destruct (m w) as [[a|e1] w1]; simpl.
  - split; [intros H; right; eauto|].
    intros [H|(a' & w1' & H1 & H)]; by simplify_eq.
  - split; [intros H; simplify_eq; by left|].
    intros [H|(a' & w1' & H & _)]; by simplify_eq.
Qed.

Lemma with_raises {A B} (enter : M A) (exit : bool → world → world) (body : A → M B)
    (e : exn) (w w' : world) :
  with_ enter exit body w = (Raise e, w') ↔
  raises_or enter e w' (λ a w1, ∃ w2, body a w1 = (Raise e, w2) ∧ w' = exit true w2) w.
Proof.
  unfold with_, raises_or. destruct (enter w) as [[a|e1] w1]; simpl.
  - split.
    + destruct (body a w1) as [[b|e2] w2] eqn:E; intros H; simplify_eq.
      right. exists a, w1. split; [done|]. by exists w2.
    + intros [H|(a' & w1' & H1 & w2 & H & ->)]; simplify_eq. by rewrite H.
  - split; [intros H; simplify_eq; by left|].
    intros [H|(a' & w1' & H & _)]; by simplify_eq.
Qed.

Lemma with_file_raises {A B} (enter : M A) (body : A → M B) (e : exn) (w w' : world) :
  with_ enter (λ _ w, w) body w = (Raise e, w') ↔
  raises_or enter e w' (λ a w1, body a w1 = (Raise e, w')) w.
Proof.
  rewrite with_raises. unfold raises_or.
  split; (intros [?|(a & w1 & ? & H)]; [by left|right]); exists a, w1; split; try done.
  - by destruct H as (w2 & -> & ->).
  - eauto.
Qed.

Lemma raises_or_iff {A} (m : M A) (e : exn) (w' : world) (k k' : A → world → Prop)
    (w : world) :
  (∀ a w1, k a w1 ↔ k' a w1) → raises_or m e w' k w ↔ raises_or m e w' k' w.
Proof.
  intros H. unfold raises_or. split; (intros [?|(a & w1 & ? & ?)]; [by left|right]);
    exists a, w1; split; try done; by apply H.
Qed.

(** A sequence of statements raises what its first failing statement
    raises. *)
Ltac first_failure :=
  repeat first
    [ reflexivity
    | lazymatch goal with
      | |- with_ _ (λ _ w, w) _ _ = _ ↔ _ => etrans; [apply with_file_raises|]
      | |- with_ _ _ _ _ = _ ↔ _ => etrans; [apply with_raises|]
      | |- mbind _ _ _ = _ ↔ _ => etrans; [apply bind_raises|]
      end; apply raises_or_iff; intros ? ?
    | match goal with
      | |- context [let '(_, _) := ?x in _] => destruct x
      end ].

Section Properties.

Variable cell_leb : cell → cell → bool.
Variable read_csv_parse : fobj → result DataFrame.
Variable yaml_safe_load : fobj → result (gmap string (gmap string pyval)).
Variable experiment_id_of : string → string.
Variable keras_fit :
  option Z → Model → DataFrame → matrix → FitArgs → result History.
Variable keras_check : keras_call → option exn.

(** ** The model builder *)

(** C2.  Whatever the input width, the number of classes and the values
    of the four settings, [create_model] builds, in this order, the two
    hidden relu layers of [hidden_layer_1_neurons] and
    [hidden_layer_2_neurons] units, each followed by its dropout of
    [dropout_rate], the softmax layer of [num_classes] units, the
    sequential network of these five layers and the Adam optimizer at
    [learning_rate], and compiles the network with that optimizer, the
    categorical cross-entropy loss and accuracy as the only metric.  It
    returns the compiled network when Keras accepts every one of these
    calls, and otherwise raises what Keras raised at the first call it
    rejected. *)
Theorem create_model_architecture (input_shape num_classes : Z) (params : loc)
    (d : gmap string pyval) (units1 units2 rate learning_rate : pyval) (w : world) :
  w_heap w !! params = Some (ODict d) →
  d !! "hidden_layer_1_neurons" = Some units1 →
  d !! "hidden_layer_2_neurons" = Some units2 →
  d !! "dropout_rate" = Some rate →
  d !! "learning_rate" = Some learning_rate →
  let layers :=
    [ Dense units1 "relu" (Some [input_shape]);
      Dropout rate;
      Dense units2 "relu" None;
      Dropout rate;
      Dense (PInt num_classes) "softmax" None ] in
  let compiled := mkCompile (Adam learning_rate) "categorical_crossentropy" ["accuracy"] in
  create_model keras_check input_shape num_classes params w =
    (match first_rejected keras_check
             ((Keras_layer <$> layers) ++
              [ Keras_Sequential layers;
                Keras_optimizer (Adam learning_rate);
                Keras_compile (Sequential layers) compiled ]) with
     | None => Ok (mkModel layers (Some compiled) None)
     | Some e => Raise e
     end,
     add_call (Call_create_model input_shape num_classes d) w).
Proof.
  intros Hd H1 H2 Hr Hl layers compiled. subst layers compiled.
  apply wp_eq. unfold create_model, new_layer, new_Sequential, new_optimizer, compile.
  cbn [fmap list_fmap app first_rejected].
  wp_steps; unfold model_compile;
    repeat match goal with
           | H : keras_check _ = _ |- _ => rewrite ?H; clear H
           end; done.
Qed.

(** ** Data preparation *)

Lemma assoc_lookup_elem {A} (k : string) (l : list (string * A)) :
  k ∈ l.*1 → is_Some (assoc_lookup k l).
Proof.
  induction l as [|[k' a] l IH]; simpl.
  - by intros ?%elem_of_nil.
  - intros [->|H]%elem_of_cons; case_decide; eauto; done.
Qed.

Lemma df_without_present (df : DataFrame) (label : string) :
  label ∈ df_labels df →
  df_without df label = Ok (mkDataFrame (filter (λ c, c.1 ≠ label) (df_columns df))).
Proof. intros H. unfold df_without. by rewrite decide_True. Qed.

Lemma np_unique_perm (col : list cell) : np_unique cell_leb col ≡ₚ remove_dups col.
Proof. apply merge_sort_Permutation. Qed.

Lemma encoder_fit_transform_new (col : list cell) :
  encoder_fit_transform cell_leb (new_encoder false) col =
    match col with
    | [] => Raise no_samples
    | _ => Ok (map (one_hot_row (np_unique cell_leb col)) col,
               mkEncoder false (Some (np_unique cell_leb col)) 1)
    end.
Proof.
  destruct col as [|c col]; [done|].
  unfold encoder_fit_transform, encoder_transform, encoder_fit.
  cbn [enc_categories enc_sparse_output enc_fits new_encoder].
  rewrite decide_True; [done|].
  apply Forall_forall. intros v Hv. rewrite np_unique_perm. by apply elem_of_remove_dups.
Qed.

Lemma encoder_fit_transform_ok (col : list cell) (y : matrix) (encoder : OneHotEncoder) :
  encoder_fit_transform cell_leb (new_encoder false) col = Ok (y, encoder) →
  col ≠ [] ∧
  y = map (one_hot_row (np_unique cell_leb col)) col ∧
  encoder = mkEncoder false (Some (np_unique cell_leb col)) 1.
Proof.
  rewrite encoder_fit_transform_new. destruct col as [|c col]; [done|].
  by intros [= <- <-].
Qed.

Lemma df_getitem_elem (df : DataFrame) (label : string) (col : list cell) :
  df_getitem df label = Ok col → (label, col) ∈ df_columns df.
Proof.
  unfold df_getitem. destruct df as [cols]. simpl.
  induction cols as [|[k c] cols IH]; simpl; [done|].
  case_decide as Hk.
  - intros [= ->]. subst k. apply elem_of_cons. by left.
  - intros H. apply elem_of_cons. right. by apply IH.
Qed.

Lemma df_getitem_label (df : DataFrame) (label : string) (col : list cell) :
  df_getitem df label = Ok col → label ∈ df_labels df.
Proof.
  intros H%df_getitem_elem. unfold df_labels. apply list_elem_of_fmap. by exists (label, col).
Qed.

Lemma filter_label_length {A} (label : string) (cols : list (string * A)) :
  NoDup cols.*1 → label ∈ cols.*1 →
  S (length (filter (λ c, c.1 ≠ label) cols)) = length cols.
Proof.
  induction cols as [|[k c] cols IH]; simpl.
  - by intros _ ?%elem_of_nil.
  - intros [Hk Hnd]%NoDup_cons Hin. rewrite filter_cons. simpl.
    destruct (decide (k ≠ label)) as [Hne|Heq].
    + simpl. f_equal. apply IH; [done|].
      apply elem_of_cons in Hin as [->|Hin]; done.
    + apply dec_stable in Heq. subst k. f_equal.
      clear IH Hin Hnd. induction cols as [|[k c'] cols IH]; [done|].
      simpl in Hk. rewrite filter_cons. simpl.
      apply not_elem_of_cons in Hk as [Hne Hk].
      rewrite decide_True by done. simpl. f_equal. by apply IH.
Qed.


(** C10.  [prepare_data] leaves the object behind its argument as it was,
    whether it returns or raises: the frame without [target] is a new
    object. *)
Theorem prepare_data_keeps_argument (train_data : loc) (o : obj) (w : world) :
  w_heap w !! train_data = Some o →
  ∀ r w', prepare_data cell_leb train_data w = (r, w') →
          w_heap w' !! train_data = Some o.
Proof.
  intros H r w' E.
  apply (wp_run _ (λ _ w0, w_heap w0 !! train_data = Some o) _ _ _) in E; [done|].
  unfold prepare_data, DataFrame_drop, DataFrame_column, OneHotEncoder_fit_transform.
  wp_steps; rewrite ?lookup_insert_ne by solve_ne; congruence.
Qed.

(** ** The call log and the tracker's part of the world *)

Lemma create_model_calls_app (a b : list call) :
  create_model_calls (a ++ b) = (create_model_calls a ++ create_model_calls b)%list.
Proof. apply omap_app. Qed.

Lemma written_paths_app (a b : list call) :
  written_paths (a ++ b) = (written_paths a ++ written_paths b)%list.
Proof. apply omap_app. Qed.

Lemma start_run_calls_app (a b : list call) :
  start_run_calls (a ++ b) = (start_run_calls a ++ start_run_calls b)%list.
Proof. apply omap_app. Qed.

Lemma tracker_only_create_model (cs : list call) :
  forallb tracker_only cs = true → create_model_calls cs = [].
Proof.
  induction cs as [|c cs IH]; [done|]. simpl. intros [Hc Hcs]%andb_prop.
  destruct c; try discriminate; by apply IH.
Qed.

Lemma tracker_only_written (cs : list call) :
  forallb tracker_only cs = true → written_paths cs = [].
Proof.
  induction cs as [|c cs IH]; [done|]. simpl. intros [Hc Hcs]%andb_prop.
  destruct c; try discriminate; by apply IH.
Qed.

Lemma tracker_frame_refl (w : world) : tracker_frame w w.
Proof. unfold tracker_frame. split_and!; try done. exists []. by rewrite app_nil_r. Qed.

Lemma tracker_frame_trans (w1 w2 w3 : world) :
  tracker_frame w1 w2 → tracker_frame w2 w3 → tracker_frame w1 w3.
Proof.
  intros (?&?&?&?&?&n1&E1&F1) (?&?&?&?&?&n2&E2&F2).
  unfold tracker_frame. split_and!; try congruence.
  exists (n1 ++ n2)%list. split.
  - by rewrite E2, E1, app_assoc.
  - by rewrite forallb_app, F1, F2.
Qed.

Lemma dvc_run_args_frame (w : world) :
  wp dvc_run_args (λ _ w1, tracker_frame w w1) w.
Proof. unfold_script. wp_steps; solve_frame. Qed.

Lemma mlflow_set_experiment_frame (name : string) (w : world) :
  wp (mlflow_set_experiment experiment_id_of name)
     (λ r w1, r = Ok () ∧ tracker_frame w w1) w.
Proof. unfold_script. wp_steps. split; [done|solve_frame]. Qed.

Lemma mlflow_keras_autolog_frame (w : world) :
  wp mlflow_keras_autolog (λ r w1, r = Ok () ∧ tracker_frame w w1) w.
Proof. unfold_script. wp_steps. split; [done|solve_frame]. Qed.

Lemma mlflow_start_run_frame (kw : StartRunArgs) (w : world) :
  wp (mlflow_start_run kw) (λ _ w1, tracker_frame w w1) w.
Proof. unfold_script. wp_steps; solve_frame. Qed.

(** [train_model] is the tracker's set-up, then the training run between
    its [start_run] and its [end_run]. *)
Lemma wp_train_model (train_data params : loc) (Q : result unit → world → Prop) (w : world) :
  (∀ e w1, tracker_frame w w1 → Q (Raise e) w1) →
  (∀ w2, tracker_frame w w2 →
         wp (training_run cell_leb keras_fit keras_check train_data params)
            (λ r w3, Q r (mlflow_end_run (raised r) w3)) w2) →
  wp (train_model cell_leb experiment_id_of keras_fit keras_check train_data params) Q w.
Proof.
  intros Hraise Hbody. unfold train_model, with_start_run.
  apply wp_bind. eapply wp_mono; [|apply mlflow_set_experiment_frame].
  intros ? w1 [-> F1].
  apply wp_bind. eapply wp_mono; [|apply mlflow_keras_autolog_frame].
  intros ? w2 [-> F2].
  apply wp_bind. eapply wp_mono; [|apply dvc_run_args_frame].
  intros r w3 F3.
  assert (F : tracker_frame w w3) by eauto using tracker_frame_trans.
  destruct r as [kw|e]; [|by apply Hraise].
  apply wp_with. eapply wp_mono; [|apply mlflow_start_run_frame].
  intros r w4 F4.
  assert (F' : tracker_frame w w4) by eauto using tracker_frame_trans.
  destruct r as [run|e]; [by apply Hbody|by apply Hraise].
Qed.

(** ** The hyperparameters on their way to the model builder *)

Lemma training_run_create_model (train_data params : loc) (d : gmap string pyval)
    (w : world) :
  w_heap w !! params = Some (ODict d) →
  wp (training_run cell_leb keras_fit keras_check train_data params)
    (λ r w', ∃ new : list call,
      w_calls w' = (w_calls w ++ new)%list ∧
      match r with
      | Ok _ => ∃ i n, create_model_calls new = [(i, n, delete "random_seed" d)]
      | Raise _ =>
          create_model_calls new = [] ∨
          ∃ i n, create_model_calls new = [(i, n, delete "random_seed" d)]
      end) w.
Proof.
  intros Hd. unfold_script.
  wp_steps.
  all: new_calls; eauto.
Qed.


(** C1, as the code has it.  [train_model] enters [create_model] at most
    once, and the mapping [create_model] finds behind [params] is the
    caller's mapping with [random_seed] removed: the seed was popped two
    statements earlier.  A call that returns has entered it exactly
    once. *)
Theorem create_model_receives_params_without_seed (train_data params : loc)
    (d : gmap string pyval) (w : world) (r : result unit) (w' : world) :
  w_heap w !! params = Some (ODict d) →
  train_model cell_leb experiment_id_of keras_fit keras_check train_data params w = (r, w') →
  ∃ new : list call,
    w_calls w' = (w_calls w ++ new)%list ∧
    match r with
    | Ok _ => ∃ i n, create_model_calls new = [(i, n, delete "random_seed" d)]
    | Raise _ =>
        create_model_calls new = [] ∨
        ∃ i n, create_model_calls new = [(i, n, delete "random_seed" d)]
    end.
Proof.
  intros Hd E.
  apply (wp_run _ (λ r w', ∃ new : list call,
    w_calls w' = (w_calls w ++ new)%list ∧
    match r with
    | Ok _ => ∃ i n, create_model_calls new = [(i, n, delete "random_seed" d)]
    | Raise _ =>
        create_model_calls new = [] ∨
        ∃ i n, create_model_calls new = [(i, n, delete "random_seed" d)]
    end) _ _ _) in E; [done|].
  apply wp_train_model.
  - intros e w1 (_&_&_&_&_&pre&Hpre&Tpre). exists pre. split; [done|].
    left. by apply tracker_only_create_model.
  - intros w2 (_&_&_&Hheap&_&pre&Hpre&Tpre).
    eapply wp_mono; [|apply (training_run_create_model _ _ d); congruence].
    intros r2 w3 (body & Hbody & Hcm). wsimpl.
    exists (pre ++ body ++ [Call_end_run (if raised r2 then FAILED else FINISHED)])%list.
    split; [by rewrite Hbody, Hpre, !app_assoc|].
    rewrite !create_model_calls_app, (tracker_only_create_model pre Tpre).
    destruct r2; simpl; rewrite app_nil_r; done.
Qed.

(** ** The run store *)

Lemma find_run_cons (rid : string) (r : Run) (runs : list Run) :
  find_run rid (r :: runs) = if decide (run_id r = rid) then Some r else find_run rid runs.
Proof.
  unfold find_run. simpl. case_decide; [done|].
  by destruct (list_find _ runs) as [[i x]|].
Qed.

Lemma find_run_app (rid : string) (l1 l2 : list Run) :
  find_run rid (l1 ++ l2) =
    match find_run rid l1 with
    | Some r => Some r
    | None => find_run rid l2
    end.
Proof.
  induction l1 as [|r l1 IH]; [done|].
  rewrite <- app_comm_cons, !find_run_cons. by case_decide.
Qed.

Lemma find_run_fresh (rid : string) (runs : list Run) :
  rid ∉ run_id <$> runs → find_run rid runs = None.
Proof.
  induction runs as [|r runs IH]; [done|].
  rewrite fmap_cons, not_elem_of_cons, find_run_cons. intros [Hne Hrest].
  rewrite decide_False by done. auto.
Qed.

Lemma find_run_elem (r : Run) (runs : list Run) :
  r ∈ runs → is_Some (find_run (run_id r) runs).
Proof.
  induction runs as [|r' runs IH]; [by intros ?%elem_of_nil|].
  rewrite find_run_cons. intros [->|H]%elem_of_cons.
  - by rewrite decide_True.
  - destruct (decide (run_id r' = run_id r)); eauto.
Qed.

Lemma find_run_update (rid rid' : string) (f : Run → Run) (runs : list Run) :
  (∀ r, run_id (f r) = run_id r) →
  find_run rid (update_run rid' f runs) =
    (λ r, if decide (run_id r = rid') then f r else r) <$> find_run rid runs.
Proof.
  intros Hf. induction runs as [|r runs IH]; [done|].
  unfold update_run in *. simpl. rewrite !find_run_cons.
  destruct (decide (run_id r = rid')) as [E|E]; rewrite ?Hf;
    destruct (decide (run_id r = rid)) as [E'|E']; simpl;
    rewrite ?decide_True by done; rewrite ?decide_False by done; auto.
Qed.

Lemma update_run_compose (rid : string) (f g : Run → Run) (runs : list Run) :
  (∀ r, run_id (f r) = run_id r) →
  update_run rid g (update_run rid f runs) = update_run rid (g ∘ f) runs.
Proof.
  intros Hf. unfold update_run. rewrite List.map_map. apply List.map_ext. intros r.
  destruct (decide (run_id r = rid)); simpl.
  - by rewrite decide_True by (by rewrite Hf).
  - by rewrite decide_False.
Qed.

Lemma update_run_fresh (rid : string) (f : Run → Run) (runs : list Run) :
  rid ∉ run_id <$> runs → update_run rid f runs = runs.
Proof.
  induction runs as [|r runs IH]; [done|].
  rewrite fmap_cons, not_elem_of_cons. intros [Hne Hrest].
  unfold update_run in *. simpl. rewrite decide_False by done. f_equal. auto.
Qed.

Lemma update_run_app (rid : string) (f : Run → Run) (l1 l2 : list Run) :
  update_run rid f (l1 ++ l2) = (update_run rid f l1 ++ update_run rid f l2)%list.
Proof. apply List.map_app. Qed.

Lemma update_run_ids (rid : string) (f : Run → Run) (runs : list Run) :
  (∀ r, run_id (f r) = run_id r) →
  run_id <$> update_run rid f runs = run_id <$> runs.
Proof.
  intros Hf. induction runs as [|r runs IH]; [done|].
  unfold update_run in *. cbn [map fmap list_fmap] in *. f_equal; [|done].
  case_decide; [apply Hf|done].
Qed.

Lemma fresh_run_id (runs : list Run) : fresh (run_id <$> runs) ∉ run_id <$> runs.
Proof. apply infinite_is_fresh. Qed.

(** With no run active, [start_run] succeeds as soon as the parent it
    names, if any, is in the store. *)
Lemma tracker_start_run_top (kw : StartRunArgs) (t : Tracker) :
  t_active t = [] →
  match kw_parent_run_id kw with
  | Some p => is_Some (find_run p (t_runs t))
  | None => True
  end →
  let r := mkRun (fresh (run_id <$> t_runs t)) (default "0" (t_experiment t)) (t_clock t)
                 RUNNING (kw_run_name kw) (kw_parent_run_id kw) ∅ ∅ [] in
  tracker_start_run kw t =
    Ok (r, mkTracker (t_runs t ++ [r]) [run_id r] (t_experiment t) (t_autolog t)
                     (t_clock t + 1)).
Proof.
  intros Hact Hp. unfold tracker_start_run. rewrite Hact. simpl.
  destruct (kw_parent_run_id kw) as [p|]; simpl; [|done].
  by rewrite bool_decide_eq_true_2.
Qed.

(** The search returns runs of the store that match, the latest first. *)
Lemma search_dvc_runs_head (ids : list (option string)) (t : Tracker) (p : Run)
    (others : list Run) :
  search_dvc_runs ids t = p :: others →
  p ∈ t_runs t ∧ run_matches ids p ∧
  ∀ q, q ∈ t_runs t → run_matches ids q → (run_start_time q ≤ run_start_time p)%Z.
Proof.
  unfold search_dvc_runs. intros E.
  assert (Hin : ∀ q, q ∈ p :: others ↔ run_matches ids q ∧ q ∈ t_runs t).
  { intros q. by rewrite <- E, merge_sort_Permutation, list_elem_of_filter. }
  assert (Total started_after).
  { intros r1 r2. unfold started_after. lia. }
  assert (Transitive started_after).
  { intros r1 r2 r3. unfold started_after. lia. }
  pose proof (StronglySorted_merge_sort started_after
                (filter (run_matches ids) (t_runs t))) as Hs.
  rewrite E in Hs. apply StronglySorted_inv in Hs as [_ Hhd].
  destruct (proj1 (Hin p)) as [Hm Hp]; [left|].
  split_and!; [done|done|].
  intros q Hq Hmq.
  assert (Hq' : q ∈ p :: others) by (by apply Hin).
  apply elem_of_cons in Hq' as [->|Hq']; [lia|].
  rewrite Forall_forall in Hhd. by apply Hhd.
Qed.

Lemma search_dvc_runs_nil (ids : list (option string)) (t : Tracker) :
  search_dvc_runs ids t = [] →
  ∀ q, q ∈ t_runs t → ¬ run_matches ids q.
Proof.
  unfold search_dvc_runs. intros E q Hq Hm.
  assert (q ∈ merge_sort started_after (filter (run_matches ids) (t_runs t))) as Hin.
  { by rewrite merge_sort_Permutation, list_elem_of_filter. }
  rewrite E in Hin. by apply elem_of_nil in Hin.
Qed.

Lemma update_run_last (rid : string) (f : Run → Run) (runs : list Run) (r : Run) :
  rid ∉ run_id <$> runs → run_id r = rid →
  update_run rid f (runs ++ [r]) = (runs ++ [f r])%list.
Proof.
  intros Hfresh Hr. rewrite update_run_app, update_run_fresh by done.
  unfold update_run. simpl. by rewrite decide_True.
Qed.

Lemma wp_train_model_top (train_data params : loc) (Q : result unit → world → Prop)
    (w : world) :
  t_active (w_tracker w) = [] →
  let runs := t_runs (w_tracker w) in
  let clock := t_clock (w_tracker w) in
  let experiment := experiment_id_of "ml_classification" in
  let search :=
    Call_search_runs [w_env w !! "MLFLOW_EXPERIMENT_ID"] "tags.dvc_exp = 'True'"
                     ["start_time DESC"] in
  (∀ (pre : list call) (kw : StartRunArgs) (parents : list Run),
     match w_env w !! "DVC_EXP_NAME" with
     | None =>
         kw = no_extra_args ∧ parents = [] ∧
         pre = [Call_set_experiment "ml_classification"; Call_autolog; Call_start_run kw]
     | Some name =>
         match search_dvc_runs [w_env w !! "MLFLOW_EXPERIMENT_ID"] (w_tracker w) with
         | p :: _ =>
             kw = mkStartRunArgs (Some (run_id p)) (Some name) (Some true) ∧
             parents = [] ∧
             pre = [Call_set_experiment "ml_classification"; Call_autolog; search;
                    Call_start_run kw]
         | [] =>
             let parent := mkRun (fresh (run_id <$> runs)) experiment clock FINISHED
                                 None None {[ "dvc_exp" := PBool true ]} ∅ [] in
             kw = mkStartRunArgs (Some (run_id parent)) (Some name) (Some true) ∧
             parents = [parent] ∧
             pre = [Call_set_experiment "ml_classification"; Call_autolog; search;
                    Call_start_run no_extra_args; Call_set_tag "dvc_exp" (PBool true);
                    Call_end_run FINISHED; Call_start_run kw]
         end
     end →
     let run := mkRun (fresh (run_id <$> (runs ++ parents)%list)) experiment
                      (clock + Z.of_nat (length parents)) RUNNING
                      (kw_run_name kw) (kw_parent_run_id kw) ∅ ∅ [] in
     wp (training_run cell_leb keras_fit keras_check train_data params)
        (λ r w3, Q r (mlflow_end_run (raised r) w3))
        (mkWorld (w_env w) (w_files w) (w_write_error w) (w_heap w)
           (mkTracker (runs ++ parents ++ [run])%list [run_id run] (Some experiment) true
                      (clock + Z.of_nat (length parents) + 1))
           (w_seed w) (w_calls w ++ pre)%list)) →
  wp (train_model cell_leb experiment_id_of keras_fit keras_check train_data params) Q w.
Proof.
  destruct w as [env files werr heap [runs active e a c] seed calls]. simpl.
  intros -> Hbody.
  unfold train_model, with_start_run, dvc_run_args, with_start_run,
    mlflow_set_experiment, mlflow_keras_autolog, mlflow_search_runs, mlflow_set_tag,
    mlflow_start_run, tracker_update, os_getenv, log_call, iloc0.
  assert (Hq : bool_decide ("tags.dvc_exp = 'True'" = "tags.dvc_exp = 'True'" ∧
                            ["start_time DESC"] = ["start_time DESC"]) = true).
  { by apply bool_decide_eq_true_2. }
  set (T0 := mkTracker runs [] (Some (experiment_id_of "ml_classification")) true c).
  destruct (env !! "DVC_EXP_NAME") as [name|] eqn:Henv.
  - assert (Hb : bool_decide (env !! "DVC_EXP_NAME" ≠ None) = true).
    { rewrite Henv. by apply bool_decide_eq_true_2. }
    destruct (search_dvc_runs [env !! "MLFLOW_EXPERIMENT_ID"]
                (mkTracker runs [] e a c)) as [|p others] eqn:Hs.
    + specialize (Hbody _ _ _ (conj eq_refl (conj eq_refl eq_refl))). cbn [length app Z.of_nat Pos.of_succ_nat kw_run_name kw_parent_run_id run_id] in Hbody.
      change (search_dvc_runs [env !! "MLFLOW_EXPERIMENT_ID"] T0 = []) in Hs.
      assert (Hsb : bool_decide (search_dvc_runs [env !! "MLFLOW_EXPERIMENT_ID"] T0 = [])
                    = true) by (by apply bool_decide_eq_true_2).
      assert (Hst := tracker_start_run_top no_extra_args T0 eq_refl I).
      simpl in Hst. subst T0.
      repeat top_step. top_simpl.
      rewrite !update_run_last by (apply fresh_run_id || reflexivity). simpl.
      match goal with
      | |- match tracker_start_run ?kw ?t with _ => _ end =>
          rewrite (tracker_start_run_top kw t eq_refl)
      end.
      * simpl. repeat top_step. rewrite Henv. repeat top_step. close_top Hbody.
      * simpl. rewrite find_run_app, find_run_fresh by apply fresh_run_id.
        rewrite find_run_cons, decide_True by done. eauto.
    + destruct (search_dvc_runs_head _ _ _ _ Hs) as (Hp & _ & _). simpl in Hp.
      specialize (Hbody _ _ _ (conj eq_refl (conj eq_refl eq_refl))). cbn [length app Z.of_nat Pos.of_succ_nat kw_run_name kw_parent_run_id run_id] in Hbody.
      rewrite app_nil_r, Z.add_0_r in Hbody.
      change (search_dvc_runs [env !! "MLFLOW_EXPERIMENT_ID"] T0 = p :: others) in Hs.
      assert (Hsb : bool_decide (search_dvc_runs [env !! "MLFLOW_EXPERIMENT_ID"] T0 = [])
                    = false) by (by apply bool_decide_eq_false_2; rewrite Hs).
      assert (Hst := tracker_start_run_top
                       (mkStartRunArgs (Some (run_id p)) (env !! "DVC_EXP_NAME") (Some true))
                       T0 eq_refl (find_run_elem _ _ Hp)).
      simpl in Hst. rewrite Henv in Hst. subst T0.
      repeat top_step. rewrite Henv. repeat top_step. close_top Hbody.
  - assert (Hb : bool_decide (env !! "DVC_EXP_NAME" ≠ None) = false).
    { rewrite Henv. apply bool_decide_eq_false_2. by intros []. }
    specialize (Hbody _ _ _ (conj eq_refl (conj eq_refl eq_refl))). cbn [length app Z.of_nat Pos.of_succ_nat kw_run_name kw_parent_run_id run_id] in Hbody.
    rewrite app_nil_r, Z.add_0_r in Hbody.
    assert (Hst := tracker_start_run_top no_extra_args T0 eq_refl I).
    simpl in Hst. subst T0.
    repeat top_step. close_top Hbody.
Qed.

Lemma update_run_id (rid : string) (runs : list Run) : update_run rid id runs = runs.
Proof.
  unfold update_run. rewrite <- (List.map_id runs) at 2. apply List.map_ext.
  intros r. by case_decide.
Qed.

(** ** What the training run does to the tracker

    It logs to the active run and to no other: the run store changes at
    the active run only, in its logged parameters and artifacts; no run is
    started or ended. *)
Lemma training_run_tracker (train_data params : loc) (w : world) (rid : string)
    (rest : list string) :
  t_active (w_tracker w) = rid :: rest →
  wp (training_run cell_leb keras_fit keras_check train_data params)
    (λ _ w', ∃ (f : Run → Run) (body : list call),
      w_calls w' = (w_calls w ++ body)%list ∧
      start_run_calls body = [] ∧
      w_tracker w' =
        mkTracker (update_run rid f (t_runs (w_tracker w))) (rid :: rest)
                  (t_experiment (w_tracker w)) (t_autolog (w_tracker w))
                  (t_clock (w_tracker w)) ∧
      ∀ r, run_id (f r) = run_id r ∧ run_experiment_id (f r) = run_experiment_id r ∧
           run_start_time (f r) = run_start_time r ∧ run_status (f r) = run_status r ∧
           run_name (f r) = run_name r ∧ run_parent (f r) = run_parent r ∧
           run_tags (f r) = run_tags r) w.
Proof.
  destruct w as [env files werr heap [runs active e a c] seed calls]. simpl.
  intros ->. unfold_script.
  run_steps.
  all: rewrite ?update_run_compose by (intros; reflexivity).
  all: first
    [ eexists; new_calls; split_and!; [reflexivity|reflexivity|intros; split_and!; reflexivity]
    | exists id; rewrite update_run_id; new_calls;
      split_and!; [reflexivity|reflexivity|intros; split_and!; reflexivity] ].
Qed.

Lemma wp_run_all {A} (m : M A) (Q : result A → world → Prop) w :
  wp m Q w → ∀ r w', m w = (r, w') → Q r w'.
Proof. intros H r w'. by apply wp_run. Qed.

(** ** The whole call, in a process with no active run

    The call log and the run store after [train_model], whatever the
    training run did: the calls before the training run, those of its body
    (no [start_run] among them), its [end_run]; the store with the parent
    run, if one was created, and the training run, closed. *)
Lemma train_model_tracker (train_data params : loc) (w : world) (r : result unit)
    (w' : world) :
  t_active (w_tracker w) = [] →
  train_model cell_leb experiment_id_of keras_fit keras_check train_data params w = (r, w') →
  let runs := t_runs (w_tracker w) in
  let clock := t_clock (w_tracker w) in
  let experiment := experiment_id_of "ml_classification" in
  let search :=
    Call_search_runs [w_env w !! "MLFLOW_EXPERIMENT_ID"] "tags.dvc_exp = 'True'"
                     ["start_time DESC"] in
  let status := if raised r then FAILED else FINISHED in
  ∃ (pre : list call) (kw : StartRunArgs) (parents : list Run) (body : list call)
    (f : Run → Run),
    match w_env w !! "DVC_EXP_NAME" with
    | None =>
        kw = no_extra_args ∧ parents = [] ∧
        pre = [Call_set_experiment "ml_classification"; Call_autolog; Call_start_run kw]
    | Some name =>
        match search_dvc_runs [w_env w !! "MLFLOW_EXPERIMENT_ID"] (w_tracker w) with
        | p :: _ =>
            kw = mkStartRunArgs (Some (run_id p)) (Some name) (Some true) ∧
            parents = [] ∧
            pre = [Call_set_experiment "ml_classification"; Call_autolog; search;
                   Call_start_run kw]
        | [] =>
            let parent := mkRun (fresh (run_id <$> runs)) experiment clock FINISHED
                                None None {[ "dvc_exp" := PBool true ]} ∅ [] in
            kw = mkStartRunArgs (Some (run_id parent)) (Some name) (Some true) ∧
            parents = [parent] ∧
            pre = [Call_set_experiment "ml_classification"; Call_autolog; search;
                   Call_start_run no_extra_args; Call_set_tag "dvc_exp" (PBool true);
                   Call_end_run FINISHED; Call_start_run kw]
        end
    end ∧
    w_calls w' = (w_calls w ++ pre ++ body ++ [Call_end_run status])%list ∧
    start_run_calls body = [] ∧
    t_active (w_tracker w') = [] ∧
    t_runs (w_tracker w') =
      (runs ++ parents ++
       [run_set_status status
          (f (mkRun (fresh (run_id <$> (runs ++ parents)%list)) experiment
                    (clock + Z.of_nat (length parents)) RUNNING
                    (kw_run_name kw) (kw_parent_run_id kw) ∅ ∅ []))])%list ∧
    ∀ r0, run_id (f r0) = run_id r0 ∧ run_experiment_id (f r0) = run_experiment_id r0 ∧
          run_start_time (f r0) = run_start_time r0 ∧ run_status (f r0) = run_status r0 ∧
          run_name (f r0) = run_name r0 ∧ run_parent (f r0) = run_parent r0 ∧
          run_tags (f r0) = run_tags r0.
Proof.
  intros Hact. revert r w'. apply wp_run_all.
  apply wp_train_model_top; [done|]. cbv zeta.
  intros pre kw parents Hcase.
  eapply wp_mono; [|by eapply training_run_tracker]. cbv beta.
  intros r2 w3 (f & body & Hcalls & Hsr & Htr & Hf).
  exists pre, kw, parents, body, f.
  split; [exact Hcase|].
  unfold mlflow_end_run. top_simpl. rewrite Htr, Hcalls. top_simpl.
  split_and!; [by rewrite <- !app_assoc|done|done| |done].
  rewrite update_run_compose by apply Hf.
  rewrite (app_assoc _ parents), update_run_last; [|apply fresh_run_id|done].
  by rewrite <- app_assoc.
Qed.

(** ** Nested runs *)



(** ** The random seed *)

Lemma training_run_pops_seed (train_data params : loc) (d : gmap string pyval)
    (seed : pyval) (w : world) (rid : string) (rest : list string) :
  w_heap w !! params = Some (ODict d) →
  d !! "random_seed" = Some seed →
  t_active (w_tracker w) = rid :: rest →
  wp (training_run cell_leb keras_fit keras_check train_data params)
    (λ _ w', ∃ (f : Run → Run) (post : list call),
      w_heap w' !! params = Some (ODict (delete "random_seed" d)) ∧
      w_calls w' =
        (w_calls w ++ [Call_log_params d; Call_set_random_seed seed] ++ post)%list ∧
      w_tracker w' =
        mkTracker (update_run rid f (t_runs (w_tracker w))) (rid :: rest)
                  (t_experiment (w_tracker w)) (t_autolog (w_tracker w))
                  (t_clock (w_tracker w)) ∧
      ∀ r, run_id (f r) = run_id r ∧ run_params (f r) = d ∪ run_params r) w.
Proof.
  destruct w as [env files werr heap [runs active e a c] seed0 calls]. simpl.
  intros Hd Hseed ->. unfold_script.
  run_steps.
  all: rewrite ?update_run_compose by (intros; reflexivity).
  all: eexists; eexists; split_and!;
    [ rewrite ?lookup_insert_ne by solve_ne; apply lookup_insert_eq
    | rewrite <- ?app_assoc; reflexivity
    | reflexivity
    | intros; split; reflexivity ].
Qed.


(** ** The files written *)

Lemma model_path_eq : os_path_join "models" "model.keras" = "models/model.keras".
Proof. reflexivity. Qed.

Lemma encoder_path_eq :
  os_path_join "artifacts" "[target]_one_hot_encoder.joblib" =
    "artifacts/[target]_one_hot_encoder.joblib".
Proof. reflexivity. Qed.

Lemma training_run_files (train_data params : loc) (w : world) :
  wp (training_run cell_leb keras_fit keras_check train_data params)
     (writes_training_files keras_fit w) w.
Proof.
  unfold writes_training_files.
  unfold_script. rewrite model_path_eq, encoder_path_eq.
  wp_steps.
  all: new_calls; rewrite ?bool_decide_eq_true_2 by reflexivity.
  all: split_and!.
  all: first
    [ reflexivity
    | exact I
    | eexists; reflexivity
    | solve_files_frame
    | do 9 eexists; split_and!; [eassumption|eassumption|reflexivity] ].
Qed.

Lemma train_model_files (train_data params : loc) (w : world) :
  wp (train_model cell_leb experiment_id_of keras_fit keras_check train_data params)
     (writes_training_files keras_fit w) w.
Proof.
  apply wp_train_model.
  - intros e w1 (_&Hfiles&_&_&_&pre&Hpre&Tpre). exists pre.
    rewrite (tracker_only_written pre Tpre).
    split_and!; [done|apply prefix_nil|by rewrite Hfiles|done].
  - intros w2 (_&Hfiles&_&_&_&pre&Hpre&Tpre).
    eapply wp_mono; [|apply training_run_files].
    intros r2 w3 (body & Hbody & Hprefix & Hframe & Hok).
    unfold writes_training_files. wsimpl.
    exists (pre ++ body ++ [Call_end_run (if raised r2 then FAILED else FINISHED)])%list.
    rewrite !written_paths_app, (tracker_only_written pre Tpre). cbn [app].
    replace (written_paths [Call_end_run (if raised r2 then FAILED else FINISHED)])
      with (@nil string) by (by destruct r2).
    rewrite app_nil_r, <- Hfiles.
    split_and!; [by rewrite Hbody, Hpre, !app_assoc|done|done|done].
Qed.

Lemma final_metrics_spec (history : History) (metrics : list (string * float64)) :
  final_metrics history = Ok metrics →
  Forall2 (λ m h, m.1 = h.1 ∧ ∃ v, last h.2 = Some v ∧ py_float v = Ok m.2)
          metrics history.
Proof.
  revert metrics. induction history as [|[metric values] history IH]; simpl.
  - intros metrics [= <-]. constructor.
  - intros metrics. destruct (last values) as [v|] eqn:Hlast; [|done].
    destruct (py_float v) as [x|] eqn:Hfloat; [|done].
    destruct (final_metrics history) as [rest|]; [|done].
    intros [= <-]. constructor; [|by apply IH]. simpl. eauto.
Qed.

(** C4.  When [train_model] returns, [metrics/training.json] holds, with
    indent 2, the final-epoch values of the history that [fit] returned:
    one entry per metric of the history, in its order, whose value is the
    last element of the metric's sequence converted with [float]. *)
Theorem metrics_file_holds_final_epoch_values (train_data params : loc) (w w' : world) :
  train_model cell_leb experiment_id_of keras_fit keras_check train_data params w = (Ok (), w') →
  ∃ (seed : option Z) (model : Model) (X : DataFrame) (y : matrix) (args : FitArgs)
    (history : History) (metrics : list (string * float64)),
    keras_fit seed model X y args = Ok history ∧
    w_files w' !! "metrics/training.json" = Some (FJson metrics 2) ∧
    metrics.*1 = history.*1 ∧
    Forall2 (λ m h, m.1 = h.1 ∧ ∃ v, last h.2 = Some v ∧ py_float v = Ok m.2)
            metrics history.
Proof.
  intros E. eapply wp_run in E; [|apply train_model_files].
  destruct E as (new & _ & _ & _ & _ & Hok).
  destruct Hok as (seed & model & X & y & epochs & batch_size & history & metrics &
                   encoder & Hfit & Hmetrics & ->).
  pose proof (final_metrics_spec _ _ Hmetrics) as Hspec.
  do 7 eexists. split_and!; [exact Hfit|apply lookup_insert_eq| |exact Hspec].
  clear -Hspec. induction Hspec as [|m h ms hs [Hm _] _ IH]; [done|].
  rewrite !fmap_cons. by f_equal.
Qed.

(** [load_data] and [load_params] read: they write no file. *)
Lemma load_data_reads (w : world) :
  wp (load_data read_csv_parse)
     (λ _ w1, w_files w1 = w_files w ∧
              ∃ new, w_calls w1 = (w_calls w ++ new)%list ∧ written_paths new = []) w.
Proof.
  unfold load_data, pd_read_csv, logger_info, log_call.
  wp_steps; (split; [done|]); new_calls; reflexivity.
Qed.

Lemma load_params_reads (w : world) :
  wp (load_params yaml_safe_load)
     (λ _ w1, w_files w1 = w_files w ∧
              ∃ new, w_calls w1 = (w_calls w ++ new)%list ∧ written_paths new = []) w.
Proof.
  unfold load_params, open_r, log_call.
  wp_steps; (split; [done|]); new_calls; reflexivity.
Qed.

Lemma main_files (w : world) :
  wp (main cell_leb read_csv_parse yaml_safe_load experiment_id_of keras_fit keras_check)
     (writes_training_files keras_fit w) w.
Proof.
  unfold main.
  apply wp_bind. eapply wp_mono; [|apply load_data_reads].
  intros r1 w1 (Hf1 & n1 & Hc1 & Hw1).
  destruct r1 as [train_data|e].
  2:{ exists n1. rewrite Hw1. split_and!; [done|apply prefix_nil|by rewrite Hf1|done]. }
  apply wp_bind. eapply wp_mono; [|apply load_params_reads].
  intros r2 w2 (Hf2 & n2 & Hc2 & Hw2).
  destruct r2 as [params|e].
  2:{ exists (n1 ++ n2)%list. rewrite written_paths_app, Hw1, Hw2.
      split_and!; [by rewrite Hc2, Hc1, app_assoc|apply prefix_nil|
                   by rewrite Hf2, Hf1|done]. }
  apply wp_bind. eapply wp_mono; [|apply train_model_files].
  intros r3 w3 (n3 & Hc3 & Hprefix & Hframe & Hok).
  destruct r3 as [[]|e].
  - unfold logger_info, log_call. apply wp_modify.
    destruct Hok as (Hw3 & Hfiles).
    exists (n1 ++ n2 ++ n3 ++ [Call_logger_info "Model training completed"])%list.
    rewrite !written_paths_app, Hw1, Hw2, Hw3. wsimpl.
    split_and!; [by rewrite Hc3, Hc2, Hc1, !app_assoc|done| |done|].
    + intros p Hp. rewrite <- Hf1, <- Hf2. apply Hframe. by rewrite Hw3.
    + rewrite <- Hf1, <- Hf2. exact Hfiles.
  - exists (n1 ++ n2 ++ n3)%list.
    rewrite !written_paths_app, Hw1, Hw2. cbn [app].
    split_and!; [by rewrite Hc3, Hc2, Hc1, !app_assoc|done| |done].
    rewrite <- Hf1, <- Hf2. exact Hframe.
Qed.

(** C5.  The write calls of a run of [main] are, in this order, those to
    [models/model.keras], [artifacts/[target]_one_hot_encoder.joblib] and
    [metrics/training.json], or the first ones of these when the run is cut
    short by an exception; every other path of the file system is as it was
    before.  After a run that returns, all three were written and hold the
    model, the encoder and the metrics. *)
Theorem main_writes_three_files (w : world) (r : result unit) (w' : world) :
  main cell_leb read_csv_parse yaml_safe_load experiment_id_of keras_fit keras_check w = (r, w') →
  ∃ new : list call,
    w_calls w' = (w_calls w ++ new)%list ∧
    written_paths new `prefix_of`
      ["models/model.keras"; "artifacts/[target]_one_hot_encoder.joblib";
       "metrics/training.json"] ∧
    (∀ p, p ∉ written_paths new → w_files w' !! p = w_files w !! p) ∧
    (r = Ok () →
     written_paths new =
       ["models/model.keras"; "artifacts/[target]_one_hot_encoder.joblib";
        "metrics/training.json"] ∧
     ∃ (model : Model) (encoder : OneHotEncoder) (metrics : list (string * float64)),
       w_files w' !! "models/model.keras" = Some (FKeras model) ∧
       w_files w' !! "artifacts/[target]_one_hot_encoder.joblib" =
         Some (FJoblib encoder) ∧
       w_files w' !! "metrics/training.json" = Some (FJson metrics 2)).
Proof.
  intros E. eapply wp_run in E; [|apply main_files].
  destruct E as (new & Hcalls & Hprefix & Hframe & Hok).
  exists new. split_and!; [done..|].
  intros ->. destruct Hok as (Hw & seed & model & X & y & epochs & batch_size & history &
                              metrics & encoder & _ & _ & ->).
  split; [done|]. do 3 eexists. split_and!.
  - rewrite !lookup_insert_ne by done. apply lookup_insert_eq.
  - rewrite !lookup_insert_ne by done. apply lookup_insert_eq.
  - apply lookup_insert_eq.
Qed.

(** ** Exceptions *)

Lemma training_run_raises (train_data params : loc) (e : exn) (w w' : world) :
  training_run cell_leb keras_fit keras_check train_data params w = (Raise e, w') ↔
  raises_or (mlflow_log_params params) e w' (λ _,
  raises_or (dict_pop params "random_seed") e w' (λ seed,
  raises_or (set_random_seed seed) e w' (λ _,
  raises_or (mlflow_log_artifact "artifacts/[features]_mean_imputer.joblib") e w' (λ _,
  raises_or (mlflow_log_artifact "artifacts/[features]_scaler.joblib") e w' (λ _,
  raises_or (prepare_data cell_leb train_data) e w' (λ '(X_train, y_train, encoder),
  raises_or (read_frame X_train) e w' (λ X,
  raises_or (create_model keras_check (df_shape1 X) (matrix_shape1 y_train) params) e w'
    (λ model,
  raises_or (logger_info "Training model...") e w' (λ _,
  raises_or (dict_getitem params "epochs") e w' (λ epochs,
  raises_or (dict_getitem params "batch_size") e w' (λ batch_size,
  raises_or (model_fit keras_fit model X_train y_train
               (mkFitArgs 0.2 epochs batch_size [mkEarlyStopping "val_loss" 10 true]))
    e w' (λ '(model, history),
  raises_or (save_training_artifacts model encoder) e w' (λ _,
  raises_or (mlflow_log_artifact "artifacts/[target]_one_hot_encoder.joblib") e w' (λ _,
  raises_or (lift (final_metrics history)) e w' (λ metrics,
  raises_or (open_w "metrics/training.json") e w' (λ f w1,
    json_dump metrics f 2 w1 = (Raise e, w'))))))))))))))))) w.
Proof. unfold training_run. first_failure. Qed.

Lemma train_model_raises (train_data params : loc) (e : exn) (w w' : world) :
  train_model cell_leb experiment_id_of keras_fit keras_check train_data params w =
    (Raise e, w') ↔
  raises_or (mlflow_set_experiment experiment_id_of "ml_classification") e w' (λ _,
  raises_or mlflow_keras_autolog e w' (λ _,
  raises_or dvc_run_args e w' (λ extra_args,
  raises_or (mlflow_start_run extra_args) e w' (λ _ w1,
    ∃ w2, training_run cell_leb keras_fit keras_check train_data params w1 = (Raise e, w2) ∧
          w' = mlflow_end_run true w2)))) w.
Proof.
  unfold train_model, with_start_run. first_failure.
Qed.

Lemma load_data_raises (e : exn) (w w' : world) :
  load_data read_csv_parse w = (Raise e, w') ↔
  w' = add_call (Call_read_csv "data/processed/train_processed.csv")
         (add_call (Call_logger_info
                      "Loading feature data from data/processed/train_processed.csv") w) ∧
  match w_files w !! "data/processed/train_processed.csv" with
  | None => e = FileNotFoundError "data/processed/train_processed.csv"
  | Some table => read_csv_parse table = Raise e
  end.
Proof.
  destruct (load_data read_csv_parse w) as [r w0] eqn:E. revert E.
  revert r w0.
  apply (wp_run_all _ (λ r w0, (r, w0) = (Raise e, w') ↔ _)).
  unfold load_data, pd_read_csv, logger_info, log_call.
  wp_steps; (split; [intros ?; simplify_eq; done|intros [? ?]; simplify_eq; done]).
Qed.

Lemma model_fit_raises (model : Model) (X : loc) (df : DataFrame) (y : matrix)
    (args : FitArgs) (e : exn) (w w' : world) :
  w_heap w !! X = Some (OFrame df) →
  model_fit keras_fit model X y args w = (Raise e, w') ↔
  keras_fit (w_seed w) model df y args = Raise e ∧ w' = add_call (Call_fit args) w.
Proof.
  intros HX.
  destruct (model_fit keras_fit model X y args w) as [r w0] eqn:E. revert E.
  revert r w0.
  apply (wp_run_all _ (λ r w0, (r, w0) = (Raise e, w') ↔ _)).
  unfold model_fit, read_frame, log_call.
  wp_steps; (split; [intros ?; simplify_eq; done|intros [? ?]; simplify_eq; done]).
Qed.

Lemma save_training_artifacts_raises (model : Model) (encoder : OneHotEncoder)
    (e : exn) (w w' : world) :
  save_training_artifacts model encoder w = (Raise e, w') ↔
  (w_write_error w "models/model.keras" = Some e ∧
   w' = add_call (Call_model_save "models/model.keras")
          (add_call (Call_logger_info "Saving model to models/model.keras") w)) ∨
  (w_write_error w "models/model.keras" = None ∧
   w_write_error w "artifacts/[target]_one_hot_encoder.joblib" = Some e ∧
   w' = add_call (Call_joblib_dump "artifacts/[target]_one_hot_encoder.joblib")
          (add_call (Call_logger_info
                       "Saving encoder to artifacts/[target]_one_hot_encoder.joblib")
             (set_files (<["models/model.keras":=FKeras model]> (w_files w))
                (add_call (Call_model_save "models/model.keras")
                   (add_call (Call_logger_info "Saving model to models/model.keras")
                      w))))).
Proof.
  destruct (save_training_artifacts model encoder w) as [r w0] eqn:E. revert E.
  revert r w0.
  apply (wp_run_all _ (λ r w0, (r, w0) = (Raise e, w') ↔ _)).
  unfold save_training_artifacts. rewrite model_path_eq, encoder_path_eq.
  unfold model_save, joblib_dump, write_file, logger_info, log_call.
  wp_steps.
  all: split; [intros ?; simplify_eq; eauto|intros [[? ?]|(? & ? & ?)]; simplify_eq; done].
Qed.

Lemma main_raises (e : exn) (w w' : world) :
  main cell_leb read_csv_parse yaml_safe_load experiment_id_of keras_fit keras_check w =
    (Raise e, w') ↔
  load_data read_csv_parse w = (Raise e, w') ∨
  (∃ train_data w1,
     load_data read_csv_parse w = (Ok train_data, w1) ∧
     load_params yaml_safe_load w1 = (Raise e, w')) ∨
  (∃ train_data w1 params w2,
     load_data read_csv_parse w = (Ok train_data, w1) ∧
     load_params yaml_safe_load w1 = (Ok params, w2) ∧
     train_model cell_leb experiment_id_of keras_fit keras_check train_data params w2 =
       (Raise e, w')).
Proof.
  unfold main, mbind, M_bind, logger_info, log_call, modify.
  destruct (load_data read_csv_parse w) as [[train_data|e1] w1] eqn:E1.
  2:{ split; [intros [= -> ->]; by left|].
      intros [H|[(?&?&H&_)|(?&?&?&?&H&_)]]; congruence. }
  destruct (load_params yaml_safe_load w1) as [[params|e2] w2] eqn:E2.
  2:{ split; [intros [= -> ->]; right; left; eauto|].
      intros [H|[(?&?&[= <- <-]&H')|(?&?&?&?&[= <- <-]&H'&_)]]; congruence. }
  destruct (train_model _ _ _ _ _ _ w2) as [[[]|e3] w3] eqn:E3.
  - split; [done|].
    intros [H|[(?&?&[= <- <-]&H')|(?&?&?&?&[= <- <-]&H'&H'')]]; [done|congruence|].
    rewrite E2 in H'. injection H' as <- <-. congruence.
  - split; [intros [= -> ->]; right; right; eauto 10|].
    intros [H|[(?&?&[= <- <-]&H')|(?&?&?&?&[= <- <-]&H'&H'')]]; [done|congruence|].
    rewrite E2 in H'. injection H' as <- <-. congruence.
Qed.

Lemma load_params_raises (w : world) :
  match w_files w !! "params.yaml" with
  | None =>
      load_params yaml_safe_load w =
        (Raise (FileNotFoundError "params.yaml"), add_call (Call_open "params.yaml" "r") w)
  | Some text =>
      ∀ e, yaml_safe_load text = Raise e →
           load_params yaml_safe_load w =
             (Raise e, add_call Call_yaml_safe_load (add_call (Call_open "params.yaml" "r") w))
  end.
Proof.
  destruct (w_files w !! "params.yaml") as [text|] eqn:Hfile; [intros e Hyaml|];
    apply wp_eq; unfold load_params, open_r, log_call; by wp_steps.
Qed.


(** * Further properties of the script *)

(** ** Loading the hyperparameters *)

(** X1.  When [params.yaml] is there and the parser makes of it a mapping
    of sections to mappings of settings, [load_params] returns a new dict
    holding the [train] section and nothing of the other sections, and
    raises [KeyError] when the document has no such section.  It opens
    the file and calls the parser once; the file system, the tracker and
    the objects that exist are left alone. *)
Theorem load_params_train_section (text : fobj)
    (sections : gmap string (gmap string pyval)) (w : world) :
  w_files w !! "params.yaml" = Some text →
  yaml_safe_load text = Ok sections →
  ∃ (r : result loc) (w' : world),
    load_params yaml_safe_load w = (r, w') ∧
    w_files w' = w_files w ∧ w_tracker w' = w_tracker w ∧
    w_calls w' = (w_calls w ++ [Call_open "params.yaml" "r"; Call_yaml_safe_load])%list ∧
    match sections !! "train" with
    | None => r = Raise (KeyError "train") ∧ w_heap w' = w_heap w
    | Some d =>
        ∃ params : loc,
          r = Ok params ∧ w_heap w !! params = None ∧
          w_heap w' = <[params:=ODict d]> (w_heap w)
    end.
Proof.
  intros Hfile Hyaml.
  destruct (load_params yaml_safe_load w) as [r w'] eqn:E. exists r, w'.
  split; [done|]. revert r w' E. apply wp_run_all.
  unfold load_params, open_r, log_call.
  destruct (sections !! "train") as [d|] eqn:Htrain; wp_steps;
    (split; [done|]; split; [done|]; split; [by rewrite <- app_assoc|eauto]).
Qed.

(** ** Data preparation, at the edges *)

(** X2.  On a frame without a [target] column [prepare_data] raises
    [KeyError] from [drop]: the encoder is not fitted and the world is as
    before, no object was created. *)
Theorem prepare_data_missing_target (train_data : loc) (df : DataFrame) (w : world) :
  w_heap w !! train_data = Some (OFrame df) →
  "target" ∉ df_labels df →
  prepare_data cell_leb train_data w = (Raise (KeyError "target"), w).
Proof.
  intros Hdf Ht. apply wp_eq.
  assert (Hdrop : df_without df "target" = Raise (KeyError "target")).
  { unfold df_without. by rewrite decide_False. }
  unfold prepare_data, DataFrame_drop, DataFrame_column, OneHotEncoder_fit_transform,
    read_frame.
  by wp_steps.
Qed.

Lemma one_hot_row_spec (cats : list cell) (v : cell) :
  NoDup cats → v ∈ cats →
  ∃ i : nat, cats !! i = Some v ∧
             one_hot_row cats v = <[i:=1%Z]> (replicate (length cats) 0%Z).
Proof.
  unfold one_hot_row. induction cats as [|c cats IH]; [by intros _ ?%elem_of_nil|].
  intros [Hc Hnd]%NoDup_cons Hv. simpl.
  destruct (decide (v = c)) as [->|Hne].
  - exists 0%nat. split; [done|]. simpl. f_equal.
    clear IH Hv Hnd. induction cats as [|c' cats IH]; [done|].
    apply not_elem_of_cons in Hc as [Hne Hc]. simpl.
    rewrite decide_False by done. f_equal. by apply IH.
  - apply elem_of_cons in Hv as [?|Hv]; [done|].
    destruct (IH Hnd Hv) as (i & Hi & Hrow). exists (S i). split; [done|].
    simpl. by f_equal.
Qed.

(** X3.  On a frame of distinct column labels whose [target] column holds
    integer or string class labels, the matrix [prepare_data] returns has
    one row per row of the frame, and each row is one-hot: [1] at the
    position of the row's class among the sorted distinct classes, [0]
    everywhere else. *)
Theorem prepare_data_rows_one_hot (train_data : loc) (df : DataFrame) (col : list cell)
    (w w' : world) (X_train : loc) (y : matrix) (encoder : OneHotEncoder) :
  w_heap w !! train_data = Some (OFrame df) →
  NoDup (df_labels df) →
  df_getitem df "target" = Ok col →
  class_labels col = true →
  prepare_data cell_leb train_data w = (Ok (X_train, y, encoder), w') →
  ∃ cats : list cell,
    enc_categories encoder = Some cats ∧
    NoDup cats ∧ (∀ v, v ∈ cats ↔ v ∈ col) ∧
    Forall2 (λ row v, ∃ i : nat, cats !! i = Some v ∧
                                 row = <[i:=1%Z]> (replicate (length cats) 0%Z))
            y col.
Proof.
  intros Hdf _ Hcol _. revert w'.
  assert (H : wp (prepare_data cell_leb train_data)
    (λ r w', match r with
             | Ok (X, y, encoder) =>
                 encoder_fit_transform cell_leb (new_encoder false) col = Ok (y, encoder)
             | Raise _ => True
             end) w).
  { unfold prepare_data, DataFrame_drop, DataFrame_column, OneHotEncoder_fit_transform,
      read_frame.
    wp_steps; simplify_eq; eauto. }
  intros w' E. eapply wp_run in E; [|exact H]. cbv beta iota in E.
  apply encoder_fit_transform_ok in E as (_ & -> & ->).
  assert (Hnd : NoDup (np_unique cell_leb col)).
  { rewrite np_unique_perm. apply NoDup_remove_dups. }
  assert (Hin : ∀ v, v ∈ np_unique cell_leb col ↔ v ∈ col).
  { intros v. rewrite np_unique_perm. apply elem_of_remove_dups. }
  exists (np_unique cell_leb col). split_and!; [done..|].
  apply Forall2_fmap_l, Forall2_same_length_lookup. split; [done|].
  intros i v v' Hv Hv'. assert (v' = v) as -> by congruence.
  apply one_hot_row_spec; [done|]. apply Hin. by eapply list_elem_of_lookup_2.
Qed.

(** ** The model builder, at the edges *)

(** X4.  [create_model] reads [hidden_layer_1_neurons], [dropout_rate],
    [hidden_layer_2_neurons] and [learning_rate], in this order, each
    right before the layer or the optimizer it goes to: when Keras
    accepted what was built so far, it raises [KeyError] for the first of
    them the dict lacks, and returns no model. *)
Theorem create_model_missing_key (input_shape num_classes : Z) (params : loc)
    (d : gmap string pyval) (w : world) :
  w_heap w !! params = Some (ODict d) →
  let hidden1 units := Dense units "relu" (Some [input_shape]) in
  let hidden2 units := Dense units "relu" None in
  let output := Dense (PInt num_classes) "softmax" None in
  let raises k :=
    create_model keras_check input_shape num_classes params w =
      (Raise (KeyError k), add_call (Call_create_model input_shape num_classes d) w) in
  (d !! "hidden_layer_1_neurons" = None → raises "hidden_layer_1_neurons") ∧
  (∀ units1,
     d !! "hidden_layer_1_neurons" = Some units1 →
     first_rejected keras_check [Keras_layer (hidden1 units1)] = None →
     d !! "dropout_rate" = None → raises "dropout_rate") ∧
  (∀ units1 rate,
     d !! "hidden_layer_1_neurons" = Some units1 →
     d !! "dropout_rate" = Some rate →
     first_rejected keras_check
       [Keras_layer (hidden1 units1); Keras_layer (Dropout rate)] = None →
     d !! "hidden_layer_2_neurons" = None → raises "hidden_layer_2_neurons") ∧
  (∀ units1 rate units2,
     d !! "hidden_layer_1_neurons" = Some units1 →
     d !! "dropout_rate" = Some rate →
     d !! "hidden_layer_2_neurons" = Some units2 →
     let layers :=
       [hidden1 units1; Dropout rate; hidden2 units2; Dropout rate; output] in
     first_rejected keras_check ((Keras_layer <$> layers) ++ [Keras_Sequential layers]) =
       None →
     d !! "learning_rate" = None → raises "learning_rate").
Proof.
  intros Hd hidden1 hidden2 output raises. subst hidden1 hidden2 output raises.
  cbn beta zeta. cbn [fmap list_fmap app first_rejected].
  split_and!.
  - intros H1. apply wp_eq. unfold create_model. by wp_steps.
  - intros units1 H1 Hk Hr. apply wp_eq. unfold create_model.
    wp_steps; simplify_eq; done.
  - intros units1 rate H1 Hr Hk H2. apply wp_eq. unfold create_model.
    wp_steps; simplify_eq; done.
  - intros units1 rate units2 H1 Hr H2 Hk Hl. apply wp_eq. unfold create_model.
    wp_steps; simplify_eq; done.
Qed.

(** X5.  The model depends on these four settings and on nothing else in the
    dict: epochs, batch size, random seed or any other key, present or
    not, make no difference to what [create_model] returns or raises. *)
Theorem create_model_reads_four_keys (input_shape num_classes : Z) (params params' : loc)
    (d d' : gmap string pyval) (w w' : world) :
  w_heap w !! params = Some (ODict d) →
  w_heap w' !! params' = Some (ODict d') →
  (∀ k, k ∈ ["hidden_layer_1_neurons"; "dropout_rate"; "hidden_layer_2_neurons";
             "learning_rate"] → d' !! k = d !! k) →
  (create_model keras_check input_shape num_classes params' w').1 =
  (create_model keras_check input_shape num_classes params w).1.
Proof.
  intros Hd Hd' Hsame.
  assert (H1' := Hsame "hidden_layer_1_neurons").
  assert (Hr' := Hsame "dropout_rate").
  assert (H2' := Hsame "hidden_layer_2_neurons").
  assert (Hl' := Hsame "learning_rate").
  rewrite !elem_of_cons in H1', Hr', H2', Hl'.
  specialize (H1' ltac:(auto)). specialize (Hr' ltac:(auto)).
  specialize (H2' ltac:(auto)). specialize (Hl' ltac:(auto)).
  change (wp (create_model keras_check input_shape num_classes params')
            (λ r' _, r' = (create_model keras_check input_shape num_classes params w).1) w').
  change (wp (create_model keras_check input_shape num_classes params)
            (λ r _, wp (create_model keras_check input_shape num_classes params')
                       (λ r' _, r' = r) w') w).
  destruct (d !! "hidden_layer_1_neurons") as [u1|] eqn:H1;
    destruct (d !! "dropout_rate") as [rate|] eqn:Hr;
    destruct (d !! "hidden_layer_2_neurons") as [u2|] eqn:H2;
    destruct (d !! "learning_rate") as [lr|] eqn:Hl;
    unfold create_model, dict_getitem, read_dict, log_call; by wp_steps.
Qed.

(** ** Saving the artifacts *)

(** X6.  [save_training_artifacts] saves the model, then the encoder, and
    undoes nothing: when the model cannot be written the encoder is not
    dumped and no file changes; when only the encoder cannot be written the
    model file stays behind; otherwise both files hold what was passed.
    The log lines name the paths [os.path.join] built. *)
Theorem save_training_artifacts_cases (model : Model) (encoder : OneHotEncoder)
    (w : world) :
  ∃ (r : result unit) (w' : world),
    save_training_artifacts model encoder w = (r, w') ∧
    w_heap w' = w_heap w ∧ w_tracker w' = w_tracker w ∧
    match w_write_error w "models/model.keras" with
    | Some e =>
        r = Raise e ∧ w_files w' = w_files w ∧
        w_calls w' =
          (w_calls w ++ [Call_logger_info "Saving model to models/model.keras";
                         Call_model_save "models/model.keras"])%list
    | None =>
        w_calls w' =
          (w_calls w ++
           [Call_logger_info "Saving model to models/model.keras";
            Call_model_save "models/model.keras";
            Call_logger_info
              "Saving encoder to artifacts/[target]_one_hot_encoder.joblib";
            Call_joblib_dump "artifacts/[target]_one_hot_encoder.joblib"])%list ∧
        match w_write_error w "artifacts/[target]_one_hot_encoder.joblib" with
        | Some e =>
            r = Raise e ∧
            w_files w' = <["models/model.keras" := FKeras model]> (w_files w)
        | None =>
            r = Ok () ∧
            w_files w' =
              <["artifacts/[target]_one_hot_encoder.joblib" := FJoblib encoder]>
                (<["models/model.keras" := FKeras model]> (w_files w))
        end
    end.
Proof.
  destruct (save_training_artifacts model encoder w) as [r w'] eqn:E. exists r, w'.
  split; [done|]. revert r w' E. apply wp_run_all.
  unfold save_training_artifacts, model_save, joblib_dump, write_file, logger_info, log_call.
  rewrite model_path_eq, encoder_path_eq.
  destruct (w_write_error w "models/model.keras") as [e|] eqn:Hmodel.
  - wp_steps. split_and!; [done|done|done|done|by rewrite <- app_assoc].
  - destruct (w_write_error w "artifacts/[target]_one_hot_encoder.joblib") as [e|] eqn:Henc;
      wp_steps; (split_and!; [done|done|by rewrite <- !app_assoc|done|done]).
Qed.

(** ** The random seed, at the edges *)

Lemma wp_missing_seed (train_data params : loc) (d : gmap string pyval)
    (w : world) :
  t_active (w_tracker w) = [] →
  w_heap w !! params = Some (ODict d) →
  d !! "random_seed" = None →
  wp (train_model cell_leb experiment_id_of keras_fit keras_check train_data params)
    (λ r w',
      r = Raise (KeyError "random_seed") ∧
      w_heap w' = w_heap w ∧ w_files w' = w_files w ∧ w_seed w' = w_seed w ∧
      t_active (w_tracker w') = [] ∧
      ∃ pre : list call,
        w_calls w' = (w_calls w ++ pre ++ [Call_log_params d; Call_end_run FAILED])%list ∧
        forallb tracker_only pre = true) w.
Proof.
  intros Hact Hd Hseed.
  apply wp_train_model_top; [done|]. cbv zeta.
  intros pre kw parents Hcase.
  assert (Hpre : forallb tracker_only pre = true).
  { destruct (w_env w !! "DVC_EXP_NAME"); [destruct (search_dvc_runs _ _)|];
      by destruct Hcase as (-> & -> & ->). }
  clear Hcase. unfold_script. run_steps.
  split_and!; [done..|]. exists pre. by rewrite <- !app_assoc.
Qed.


Lemma wp_train_model_pops_seed (train_data params : loc) (d : gmap string pyval)
    (seed : pyval) (w : world) :
  t_active (w_tracker w) = [] →
  w_heap w !! params = Some (ODict d) →
  d !! "random_seed" = Some seed →
  wp (train_model cell_leb experiment_id_of keras_fit keras_check train_data params)
    (λ _ w', w_heap w' !! params = Some (ODict (delete "random_seed" d)) ∧
             t_active (w_tracker w') = []) w.
Proof.
  intros Hact Hd Hseed.
  apply wp_train_model_top; [done|]. cbv zeta.
  intros pre kw parents _.
  eapply wp_mono; [|by eapply training_run_pops_seed]. cbv beta.
  intros r2 w3 (f & post & Hheap & _ & Htr & _).
  unfold mlflow_end_run. top_simpl. by rewrite Htr.
Qed.


(** ** The life of the training run *)



(** ** The order of the calls *)

Lemma training_run_trace (train_data params : loc) (w : world) :
  wp (training_run cell_leb keras_fit keras_check train_data params)
    (λ r w', ∃ (d : gmap string pyval) (seed : pyval) (col : list cell)
               (input_shape num_classes : Z) (epochs batch_size : pyval)
               (new : list call),
      w_calls w' = (w_calls w ++ new)%list ∧
      new `prefix_of`
        training_run_calls d seed col input_shape num_classes epochs batch_size ∧
      match r with
      | Raise _ => True
      | Ok _ =>
          new = training_run_calls d seed col input_shape num_classes epochs batch_size ∧
          w_heap w !! params = Some (ODict d) ∧
          d !! "random_seed" = Some seed ∧
          delete "random_seed" d !! "epochs" = Some epochs ∧
          delete "random_seed" d !! "batch_size" = Some batch_size ∧
          ∃ (df X : DataFrame) (y : matrix) (encoder : OneHotEncoder),
            <[params:=ODict (delete "random_seed" d)]> (w_heap w) !! train_data =
              Some (OFrame df) ∧
            df_without df "target" = Ok X ∧
            df_getitem df "target" = Ok col ∧
            encoder_fit_transform cell_leb (new_encoder false) col = Ok (y, encoder) ∧
            input_shape = df_shape1 X ∧
            num_classes = matrix_shape1 y
      end) w.
Proof.
  unfold_script. rewrite model_path_eq, encoder_path_eq.
  wp_steps.
  all: do 7 eexists; new_calls.
  all: split; [unfold training_run_calls; eexists; reflexivity|].
  all: try exact I.
  all: split_and!; [reflexivity|reflexivity|eassumption|eassumption|eassumption|].
  all: do 4 eexists; split_and!; [eassumption..|reflexivity|reflexivity].
  Unshelve.
  all: first [exact (∅ : gmap string pyval) | exact (PInt 0) | exact 0%Z | exact (@nil cell)].
Qed.

Lemma training_calls_app (a b : list call) :
  training_calls (a ++ b) = (training_calls a ++ training_calls b)%list.
Proof. apply filter_app. Qed.

Lemma tracker_only_training_calls (cs : list call) :
  forallb tracker_only cs = true → training_calls cs = [].
Proof.
  induction cs as [|c cs IH]; [done|]. simpl. intros [Hc Hcs]%andb_prop.
  unfold training_calls in *. rewrite filter_cons, decide_False by congruence. auto.
Qed.

Lemma training_calls_prefix (d : gmap string pyval) (seed : pyval) (col : list cell)
    (input_shape num_classes : Z) (epochs batch_size : pyval) (cs : list call) :
  cs `prefix_of` training_run_calls d seed col input_shape num_classes epochs batch_size →
  training_calls cs = cs.
Proof.
  intros [k Hk]. unfold training_calls.
  assert (H : Forall (λ c, tracker_only c = false) (cs ++ k)).
  { rewrite <- Hk. unfold training_run_calls. by repeat constructor. }
  apply Forall_app in H as [H _].
  clear Hk. induction H as [|c cs Hc _ IH]; [done|].
  by rewrite filter_cons, decide_True, IH.
Qed.

Lemma create_model_calls_training (cs : list call) :
  create_model_calls (training_calls cs) = create_model_calls cs.
Proof.
  induction cs as [|c cs IH]; [done|].
  unfold training_calls in *. rewrite filter_cons.
  destruct c; simpl; rewrite ?IH; done.
Qed.

Lemma train_model_trace (train_data params : loc) (w : world) :
  wp (train_model cell_leb experiment_id_of keras_fit keras_check train_data params)
    (λ r w', ∃ (d : gmap string pyval) (seed : pyval) (col : list cell)
               (input_shape num_classes : Z) (epochs batch_size : pyval)
               (new : list call),
      w_calls w' = (w_calls w ++ new)%list ∧
      training_calls new `prefix_of`
        training_run_calls d seed col input_shape num_classes epochs batch_size ∧
      match r with
      | Raise _ => True
      | Ok _ =>
          training_calls new =
            training_run_calls d seed col input_shape num_classes epochs batch_size ∧
          w_heap w !! params = Some (ODict d) ∧
          d !! "random_seed" = Some seed ∧
          d !! "epochs" = Some epochs ∧
          d !! "batch_size" = Some batch_size ∧
          ∃ df : DataFrame,
            w_heap w !! train_data = Some (OFrame df) ∧
            df_getitem df "target" = Ok col ∧
            input_shape =
              Z.of_nat (length (filter (λ c, c.1 ≠ "target") (df_columns df))) ∧
            col ≠ [] ∧
            num_classes = Z.of_nat (length (remove_dups col))
      end) w.
Proof.
  apply wp_train_model.
  - intros e w1 (_&_&_&_&_&pre&Hpre&Tpre).
    exists ∅, (PInt 0), [], 0, 0, (PInt 0), (PInt 0), pre.
    rewrite (tracker_only_training_calls pre Tpre).
    split_and!; [done|apply prefix_nil|done].
  - intros w2 (_&_&_&Hheap&_&pre&Hpre&Tpre).
    eapply wp_mono; [|apply training_run_trace].
    intros r2 w3 (d & seed & col & i & n & epochs & batch_size & body & Hbody & Hprefix & Hok).
    wsimpl.
    exists d, seed, col, i, n, epochs, batch_size,
      (pre ++ body ++ [Call_end_run (if raised r2 then FAILED else FINISHED)])%list.
    rewrite !training_calls_app, (tracker_only_training_calls pre Tpre),
      (training_calls_prefix _ _ _ _ _ _ _ _ Hprefix).
    replace (training_calls [Call_end_run (if raised r2 then FAILED else FINISHED)])
      with (@nil call) by (by destruct r2).
    rewrite app_nil_r. cbn [app].
    split_and!; [by rewrite Hbody, Hpre, !app_assoc|done|].
    destruct r2 as [[]|e]; [|done].
    destruct Hok as (-> & Hd & Hseed & Hepochs & Hbatch & df & X & y & encoder &
                     Hdf & HX & Hcol & Hfit & -> & ->).
    rewrite lookup_delete_ne in Hepochs, Hbatch by done.
    rewrite Hheap in Hd, Hdf.
    assert (params ≠ train_data) as Hne.
    { intros ->. by rewrite lookup_insert_eq in Hdf. }
    rewrite lookup_insert_ne in Hdf by done.
    apply encoder_fit_transform_ok in Hfit as (Hne' & -> & _).
    split_and!; [done..|]. exists df. split_and!; [done|done| |done|].
    + unfold df_without in HX. case_decide; [|done]. by injection HX as <-.
    + destruct col as [|v col]; [done|]. simpl.
      unfold one_hot_row. by rewrite List.length_map, np_unique_perm.
Qed.

(** X11.  The library calls of [train_model], those that manage experiments and
    runs apart, are made in one fixed order: log the parameters, pop and
    set the seed, log the two preprocessing artifacts, fit the encoder,
    build the model, fit it, save the model, dump the encoder, log the
    encoder, write the metrics.  A call that returns made all of them, once
    each; a call that raises made the first ones of them. *)
Theorem train_model_call_order (train_data params : loc) (w : world) (r : result unit)
    (w' : world) :
  train_model cell_leb experiment_id_of keras_fit keras_check train_data params w = (r, w') →
  ∃ (d : gmap string pyval) (seed : pyval) (col : list cell)
    (input_shape num_classes : Z) (epochs batch_size : pyval) (new : list call),
    w_calls w' = (w_calls w ++ new)%list ∧
    training_calls new `prefix_of`
      training_run_calls d seed col input_shape num_classes epochs batch_size ∧
    (r = Ok () →
     training_calls new =
       training_run_calls d seed col input_shape num_classes epochs batch_size).
Proof.
  revert r w'. apply wp_run_all.
  eapply wp_mono; [|apply train_model_trace].
  intros r w' (d & seed & col & i & n & epochs & batch_size & new & Hcalls & Hprefix & Hok).
  exists d, seed, col, i, n, epochs, batch_size, new.
  split_and!; [done|done|]. intros ->. by destruct Hok.
Qed.

(** X12.  When [train_model] returns, on a frame of distinct column labels
    whose [target] column holds integer or string class labels, the model
    was built for the data and fitted with the settings of the dict:
    [create_model] was entered once, with the number of columns of the
    frame less one as [input_shape] and the number of distinct values of
    the [target] column as [num_classes]; [fit] was called once, with
    [validation_split=0.2], the dict's [epochs] and [batch_size], and one
    [EarlyStopping] callback on [val_loss] with patience 10 that restores
    the best weights. *)
Theorem train_model_arguments (train_data params : loc) (d : gmap string pyval)
    (df : DataFrame) (col : list cell) (w w' : world) :
  w_heap w !! params = Some (ODict d) →
  w_heap w !! train_data = Some (OFrame df) →
  NoDup (df_labels df) →
  df_getitem df "target" = Ok col →
  class_labels col = true →
  train_model cell_leb experiment_id_of keras_fit keras_check train_data params w = (Ok (), w') →
  ∃ (epochs batch_size : pyval) (new : list call),
    d !! "epochs" = Some epochs ∧
    d !! "batch_size" = Some batch_size ∧
    w_calls w' = (w_calls w ++ new)%list ∧
    create_model_calls new =
      [(df_shape1 df - 1, Z.of_nat (length (remove_dups col)), delete "random_seed" d)] ∧
    Call_fit (mkFitArgs 0.2 epochs batch_size [mkEarlyStopping "val_loss" 10 true]) ∈ new ∧
    ∀ args, Call_fit args ∈ new →
            args = mkFitArgs 0.2 epochs batch_size [mkEarlyStopping "val_loss" 10 true].
Proof.
  intros Hd0 Hdf0 Hnd Hcol0 _ E.
  eapply wp_run in E; [|apply train_model_trace]. cbv beta iota in E.
  destruct E as (d' & seed & col' & i & n & epochs & batch_size & new & Hcalls & _ &
                 Htrace & Hd & Hseed & Hepochs & Hbatch & df' & Hdf & Hcol & -> & _ & ->).
  simplify_eq.
  exists epochs, batch_size, new.
  split_and!; [done..| | |].
  - assert (col' = col) as -> by congruence.
    rewrite <- create_model_calls_training, Htrace. cbn. do 3 f_equal.
    pose proof (df_getitem_label _ _ _ Hcol0) as Ht.
    pose proof (filter_label_length "target" (df_columns df) Hnd Ht). unfold df_shape1. lia.
  - apply (list_elem_of_filter (λ c, tracker_only c = false) new).
    fold (training_calls new). rewrite Htrace. unfold training_run_calls.
    do 7 (apply elem_of_cons; right). apply elem_of_cons. by left.
  - intros args Hargs.
    assert (Call_fit args ∈ training_calls new) as Hin.
    { by apply list_elem_of_filter. }
    rewrite Htrace in Hin. unfold training_run_calls in Hin.
    repeat (apply elem_of_cons in Hin as [Hin|Hin]; [by (discriminate || injection Hin)|]).
    by apply elem_of_nil in Hin.
Qed.

(** ** What is left alone *)

(** An existing object other than the dict behind [params] is as it was. *)
Ltac solve_heap_frame :=
  let l := fresh "l" in
  let o := fresh "o" in
  let Hl := fresh "Hl" in
  let Hne := fresh "Hne" in
  intros l o Hl Hne;
  repeat
    (rewrite lookup_insert_ne;
     [|intros <-;
       repeat match goal with
              | H : <[_:=_]> _ !! _ = None |- _ =>
                  rewrite lookup_insert_ne in H by done
              end;
       congruence]);
  exact Hl.

Lemma training_run_keeps_objects (train_data params : loc) (w : world) :
  wp (training_run cell_leb keras_fit keras_check train_data params)
    (λ _ w', ∀ l o, w_heap w !! l = Some o → l ≠ params → w_heap w' !! l = Some o) w.
Proof. unfold_script. wp_steps; solve_heap_frame. Qed.

(** X14.  Of the objects that exist when [train_model] is called, the dict
    behind [params] is the only one it changes: the training frame, in
    particular, comes back as it was passed, whether the call returns or
    raises. *)
Theorem train_model_keeps_objects (train_data params : loc) (w : world) (r : result unit)
    (w' : world) (l : loc) (o : obj) :
  train_model cell_leb experiment_id_of keras_fit keras_check train_data params w = (r, w') →
  w_heap w !! l = Some o →
  l ≠ params →
  w_heap w' !! l = Some o.
Proof.
  intros E Hl Hne. revert l o Hl Hne. revert r w' E.
  apply (wp_run_all _ (λ _ w', ∀ l o, w_heap w !! l = Some o → l ≠ params →
                                      w_heap w' !! l = Some o)).
  apply wp_train_model.
  - intros e w1 (_&_&_&Hheap&_). by rewrite Hheap.
  - intros w2 (_&_&_&Hheap&_).
    eapply wp_mono; [|apply training_run_keeps_objects].
    intros r2 w3 H. wsimpl. by rewrite <- Hheap.
Qed.

(** ** The whole program *)

Lemma load_data_loads (w : world) :
  wp (load_data read_csv_parse)
    (λ r w1, match r with
             | Raise _ => True
             | Ok train_data =>
                 ∃ (table : fobj) (df : DataFrame),
                   w_files w !! "data/processed/train_processed.csv" = Some table ∧
                   read_csv_parse table = Ok df ∧
                   w_heap w !! train_data = None ∧
                   w_heap w1 = <[train_data:=OFrame df]> (w_heap w) ∧
                   w_files w1 = w_files w ∧
                   w_calls w1 =
                     (w_calls w ++
                      [Call_logger_info
                         "Loading feature data from data/processed/train_processed.csv";
                       Call_read_csv "data/processed/train_processed.csv"])%list
             end) w.
Proof.
  unfold load_data, pd_read_csv, logger_info, log_call.
  wp_steps; try exact I.
  do 2 eexists. split_and!; [reflexivity|eassumption|done|done|done|].
  by rewrite <- app_assoc.
Qed.

Lemma load_params_loads (w : world) :
  wp (load_params yaml_safe_load)
    (λ r w1, match r with
             | Raise _ => True
             | Ok params =>
                 ∃ (text : fobj) (sections : gmap string (gmap string pyval))
                   (d : gmap string pyval),
                   w_files w !! "params.yaml" = Some text ∧
                   yaml_safe_load text = Ok sections ∧
                   sections !! "train" = Some d ∧
                   w_heap w !! params = None ∧
                   w_heap w1 = <[params:=ODict d]> (w_heap w) ∧
                   w_files w1 = w_files w ∧
                   w_calls w1 =
                     (w_calls w ++ [Call_open "params.yaml" "r"; Call_yaml_safe_load])%list
             end) w.
Proof.
  unfold load_params, open_r, log_call.
  wp_steps; try exact I.
  do 3 eexists. split_and!; [reflexivity|eassumption|eassumption|done|done|done|].
  by rewrite <- app_assoc.
Qed.

(** X16.  A run of [main] that returns trained on what it loaded: the
    parameters logged to the tracker are the [train] section of
    [params.yaml], the encoder was fitted on the [target] column of the
    table parsed from [data/processed/train_processed.csv], and the calls
    of the run, those that manage experiments and runs apart, are the two
    loads, the calls of the training in their order, and the closing log
    line. *)
Theorem main_trains_on_loaded_inputs (w w' : world) :
  main cell_leb read_csv_parse yaml_safe_load experiment_id_of keras_fit keras_check w = (Ok (), w') →
  ∃ (table : fobj) (df : DataFrame) (col : list cell) (text : fobj)
    (sections : gmap string (gmap string pyval)) (d : gmap string pyval)
    (seed : pyval) (input_shape num_classes : Z) (epochs batch_size : pyval)
    (new : list call),
    w_files w !! "data/processed/train_processed.csv" = Some table ∧
    read_csv_parse table = Ok df ∧
    df_getitem df "target" = Ok col ∧
    w_files w !! "params.yaml" = Some text ∧
    yaml_safe_load text = Ok sections ∧
    sections !! "train" = Some d ∧
    w_calls w' = (w_calls w ++ new)%list ∧
    training_calls new =
      ([Call_logger_info "Loading feature data from data/processed/train_processed.csv";
        Call_read_csv "data/processed/train_processed.csv";
        Call_open "params.yaml" "r"; Call_yaml_safe_load] ++
       training_run_calls d seed col input_shape num_classes epochs batch_size ++
       [Call_logger_info "Model training completed"])%list.
Proof.
  intros E.
  apply (wp_run _ (λ r w', match r with Raise _ => True | Ok _ =>
    ∃ (table : fobj) (df : DataFrame) (col : list cell) (text : fobj)
      (sections : gmap string (gmap string pyval)) (d : gmap string pyval)
      (seed : pyval) (input_shape num_classes : Z) (epochs batch_size : pyval)
      (new : list call),
      w_files w !! "data/processed/train_processed.csv" = Some table ∧
      read_csv_parse table = Ok df ∧
      df_getitem df "target" = Ok col ∧
      w_files w !! "params.yaml" = Some text ∧
      yaml_safe_load text = Ok sections ∧
      sections !! "train" = Some d ∧
      w_calls w' = (w_calls w ++ new)%list ∧
      training_calls new =
        ([Call_logger_info "Loading feature data from data/processed/train_processed.csv";
          Call_read_csv "data/processed/train_processed.csv";
          Call_open "params.yaml" "r"; Call_yaml_safe_load] ++
         training_run_calls d seed col input_shape num_classes epochs batch_size ++
         [Call_logger_info "Model training completed"])%list end) _ _ _) in E; [done|].
  clear E. unfold main.
  apply wp_bind. eapply wp_mono; [|apply load_data_loads].
  intros [train_data|e] w1 H1; [|done].
  destruct H1 as (table & df & Htable & Hdf & Hfresh1 & Hheap1 & Hfiles1 & Hcalls1).
  apply wp_bind. eapply wp_mono; [|apply load_params_loads].
  intros [params|e] w2 H2; [|done].
  destruct H2 as (text & sections & d & Htext & Hyaml & Htrain & Hfresh2 & Hheap2 &
                  Hfiles2 & Hcalls2).
  apply wp_bind. eapply wp_mono; [|apply train_model_trace].
  intros [[]|e] w3 H3; [|done].
  destruct H3 as (d' & seed & col & i & n & epochs & batch_size & new & Hcalls3 & _ &
                  Htrace & Hd & _ & _ & _ & df' & Hdf' & Hcol & _).
  unfold logger_info, log_call. apply wp_modify. wsimpl.
  assert (params ≠ train_data) as Hne.
  { intros ->. by rewrite Hheap1, lookup_insert_eq in Hfresh2. }
  rewrite Hheap2, lookup_insert_eq in Hd. injection Hd as <-.
  rewrite Hheap2, lookup_insert_ne, Hheap1, lookup_insert_eq in Hdf' by done.
  injection Hdf' as <-.
  exists table, df, col, text, sections, d, seed, i, n, epochs, batch_size.
  eexists. split_and!; [done|done|done|by rewrite <- Hfiles1|done|done| |].
  - rewrite Hcalls3, Hcalls2, Hcalls1, <- !app_assoc. reflexivity.
  - rewrite !training_calls_app, Htrace. reflexivity.
Qed.

End Properties.

(** * The concrete run, checked *)

Lemma create_model_receives_params_without_seed_witness :
  ∃ new : list call,
    w_calls (sample_train_model (sample_loaded ∅)).2 =
      (w_calls (sample_loaded ∅) ++ new)%list ∧
    ∃ i n, create_model_calls new = [(i, n, delete "random_seed" sample_params)].
Proof.
  apply (create_model_receives_params_without_seed sample_leb sample_experiment_id
           sample_fit sample_keras_check 1%positive 2%positive sample_params (sample_loaded ∅) (Ok ())).
  - reflexivity.
  - vm_compute. reflexivity.
Defined.

(** C1, as the specification words it, fails on the concrete run: the
    loaded mapping holds [random_seed], the mapping [create_model] is
    entered with does not. *)
Lemma create_model_receives_loaded_mapping_counterexample :
  w_heap (sample_loaded ∅) !! 2%positive = Some (ODict sample_params) ∧
  (sample_train_model (sample_loaded ∅)).1 = Ok () ∧
  sample_params !! "random_seed" = Some (PInt 42) ∧
  ¬ (∀ i n d,
       (i, n, d) ∈ create_model_calls (w_calls (sample_train_model (sample_loaded ∅)).2) →
       d = sample_params).
Proof.
  split_and!; [reflexivity|by vm_compute|reflexivity|].
  intros H.
  specialize (H 2 2 (delete "random_seed" sample_params)).
  assert (E : delete "random_seed" sample_params = sample_params).
  { apply H. vm_compute. constructor. }
  apply (f_equal (λ m, m !! "random_seed")) in E.
  vm_compute in E. discriminate.
Qed.

Lemma create_model_architecture_witness :
  create_model sample_keras_check 2 2 2%positive (sample_loaded ∅) =
    (Ok (mkModel
           [ Dense (PInt 64) "relu" (Some [2]);
             Dropout (PFloat (S754_finite false 4503599627370496 (-54)));
             Dense (PInt 32) "relu" None;
             Dropout (PFloat (S754_finite false 4503599627370496 (-54)));
             Dense (PInt 2) "softmax" None ]
           (Some (mkCompile (Adam (PFloat (S754_finite false 4503599627370496 (-62))))
                            "categorical_crossentropy" ["accuracy"]))
           None),
     add_call (Call_create_model 2 2 sample_params) (sample_loaded ∅)).
Proof.
  refine (eq_trans
            (create_model_architecture sample_keras_check 2 2 2%positive sample_params
               (PInt 64) (PInt 32)
               (PFloat (S754_finite false 4503599627370496 (-54)))
               (PFloat (S754_finite false 4503599627370496 (-62)))
               (sample_loaded ∅) _ _ _ _ _) _);
    vm_compute; reflexivity.
Defined.

(** C2, as the specification words it, fails for settings that Keras
    rejects: with a dropout rate of 1.5 the dict holds every setting, yet
    [Dropout] raises [ValueError] and [create_model] returns no network. *)
Lemma create_model_rejected_rate_counterexample :
  let rate := PFloat (S754_finite false 6755399441055744 (-52)) in
  let d := <["dropout_rate":=rate]> sample_params in
  let w := set_heap (<[2%positive:=ODict d]> ∅) (sample_world ∅) in
  w_heap w !! 2%positive = Some (ODict d) ∧
  d !! "hidden_layer_1_neurons" = Some (PInt 64) ∧
  d !! "hidden_layer_2_neurons" = Some (PInt 32) ∧
  d !! "dropout_rate" = Some rate ∧
  d !! "learning_rate" = Some (PFloat (S754_finite false 4503599627370496 (-62))) ∧
  py_float rate = Ok (S754_finite false 6755399441055744 (-52)) ∧
  SFltb (float_of_int 1) (S754_finite false 6755399441055744 (-52)) = true ∧
  (create_model sample_keras_check 2 2 2%positive w).1 =
    Raise (ValueError "Invalid value received for argument `rate`.") ∧
  ¬ (∃ model : Model, (create_model sample_keras_check 2 2 2%positive w).1 = Ok model).
Proof.
  cbv zeta. split_and!; [by vm_compute..|].
  intros [model H]. vm_compute in H. discriminate H.
Qed.



Lemma prepare_data_keeps_argument_witness :
  w_heap (prepare_data sample_leb 1%positive (sample_loaded ∅)).2 !! 1%positive =
    Some (OFrame sample_frame).
Proof.
  refine (prepare_data_keeps_argument sample_leb 1%positive (OFrame sample_frame)
            (sample_loaded ∅) _
            (prepare_data sample_leb 1%positive (sample_loaded ∅)).1 _ _).
  - vm_compute. reflexivity.
  - vm_compute. reflexivity.
Defined.

Lemma metrics_file_holds_final_epoch_values_witness :
  ∃ (seed : option Z) (model : Model) (X : DataFrame) (y : matrix) (args : FitArgs)
    (history : History) (metrics : list (string * float64)),
    sample_fit seed model X y args = Ok history ∧
    w_files (sample_train_model (sample_loaded ∅)).2 !! "metrics/training.json" =
      Some (FJson metrics 2) ∧
    metrics.*1 = history.*1 ∧
    Forall2 (λ m h, m.1 = h.1 ∧ ∃ v, last h.2 = Some v ∧ py_float v = Ok m.2)
            metrics history.
Proof.
  apply (metrics_file_holds_final_epoch_values sample_leb sample_experiment_id sample_fit sample_keras_check
           1%positive 2%positive (sample_loaded ∅)).
  vm_compute. reflexivity.
Defined.

Lemma main_writes_three_files_witness :
  ∃ new : list call,
    w_calls (sample_main (sample_world ∅)).2 = (w_calls (sample_world ∅) ++ new)%list ∧
    written_paths new `prefix_of`
      ["models/model.keras"; "artifacts/[target]_one_hot_encoder.joblib";
       "metrics/training.json"] ∧
    (∀ p, p ∉ written_paths new →
          w_files (sample_main (sample_world ∅)).2 !! p = w_files (sample_world ∅) !! p) ∧
    ((sample_main (sample_world ∅)).1 = Ok () →
     written_paths new =
       ["models/model.keras"; "artifacts/[target]_one_hot_encoder.joblib";
        "metrics/training.json"] ∧
     ∃ (model : Model) (encoder : OneHotEncoder) (metrics : list (string * float64)),
       w_files (sample_main (sample_world ∅)).2 !! "models/model.keras" =
         Some (FKeras model) ∧
       w_files (sample_main (sample_world ∅)).2 !!
         "artifacts/[target]_one_hot_encoder.joblib" = Some (FJoblib encoder) ∧
       w_files (sample_main (sample_world ∅)).2 !! "metrics/training.json" =
         Some (FJson metrics 2)).
Proof.
  apply (main_writes_three_files sample_leb sample_read_csv sample_yaml
           sample_experiment_id sample_fit sample_keras_check (sample_world ∅)).
  vm_compute. reflexivity.
Defined.


Lemma load_params_train_section_witness :
  ∃ (r : result loc) (w' : world),
    load_params sample_yaml (sample_world ∅) = (r, w') ∧
    w_files w' = w_files (sample_world ∅) ∧ w_tracker w' = w_tracker (sample_world ∅) ∧
    w_calls w' =
      (w_calls (sample_world ∅) ++ [Call_open "params.yaml" "r"; Call_yaml_safe_load])%list ∧
    ∃ params : loc,
      r = Ok params ∧ w_heap (sample_world ∅) !! params = None ∧
      w_heap w' = <[params:=ODict sample_params]> (w_heap (sample_world ∅)).
Proof.
  refine (load_params_train_section sample_yaml (FText "train:")
            {[ "train" := sample_params ]} (sample_world ∅) _ _).
  - vm_compute. reflexivity.
  - reflexivity.
Defined.

Lemma prepare_data_missing_target_witness :
  prepare_data sample_leb 1%positive
    (set_heap (<[1%positive:=OFrame (mkDataFrame [("f1", [CInt 1; CInt 2])])]> ∅)
              (sample_world ∅)) =
    (Raise (KeyError "target"),
     set_heap (<[1%positive:=OFrame (mkDataFrame [("f1", [CInt 1; CInt 2])])]> ∅)
              (sample_world ∅)).
Proof.
  apply (prepare_data_missing_target sample_leb 1%positive
           (mkDataFrame [("f1", [CInt 1; CInt 2])])).
  - vm_compute. reflexivity.
  - apply (bool_decide_unpack _). vm_compute. exact I.
Defined.

Lemma prepare_data_rows_one_hot_witness :
  ∃ cats : list cell,
    enc_categories (mkEncoder false (Some [CInt 5; CInt 7]) 1) = Some cats ∧
    NoDup cats ∧ (∀ v, v ∈ cats ↔ v ∈ [CInt 7; CInt 5; CInt 7]) ∧
    Forall2 (λ row v, ∃ i : nat, cats !! i = Some v ∧
                                 row = <[i:=1%Z]> (replicate (length cats) 0%Z))
            [[0; 1]; [1; 0]; [0; 1]]%Z [CInt 7; CInt 5; CInt 7].
Proof.
  apply (prepare_data_rows_one_hot sample_leb 1%positive sample_frame
           [CInt 7; CInt 5; CInt 7] (sample_loaded ∅)
           (prepare_data sample_leb 1%positive (sample_loaded ∅)).2 3%positive).
  - vm_compute. reflexivity.
  - apply (bool_decide_unpack _). vm_compute. exact I.
  - vm_compute. reflexivity.
  - vm_compute. reflexivity.
  - vm_compute. reflexivity.
Defined.

Lemma create_model_missing_key_witness :
  create_model sample_keras_check 2 2 2%positive
    (set_heap (<[2%positive:=ODict (delete "learning_rate" sample_params)]> ∅)
              (sample_world ∅)) =
    (Raise (KeyError "learning_rate"),
     add_call (Call_create_model 2 2 (delete "learning_rate" sample_params))
       (set_heap (<[2%positive:=ODict (delete "learning_rate" sample_params)]> ∅)
                 (sample_world ∅))).
Proof.
  assert (Hd : w_heap
                 (set_heap (<[2%positive:=ODict (delete "learning_rate" sample_params)]> ∅)
                           (sample_world ∅)) !! 2%positive =
               Some (ODict (delete "learning_rate" sample_params))).
  { vm_compute. reflexivity. }
  pose proof (create_model_missing_key sample_keras_check 2 2 2%positive
                (delete "learning_rate" sample_params) _ Hd) as H.
  cbv zeta beta in H. destruct H as (_ & _ & _ & H).
  apply (H (PInt 64) (PFloat (S754_finite false 4503599627370496 (-54))) (PInt 32));
    vm_compute; reflexivity.
Defined.

Lemma create_model_reads_four_keys_witness :
  (create_model sample_keras_check 2 2 2%positive (sample_train_model (sample_loaded ∅)).2).1 =
  (create_model sample_keras_check 2 2 2%positive (sample_loaded ∅)).1.
Proof.
  apply (create_model_reads_four_keys sample_keras_check 2 2 2%positive 2%positive sample_params
           (delete "random_seed" sample_params)).
  - vm_compute. reflexivity.
  - vm_compute. reflexivity.
  - intros k Hk. rewrite !elem_of_cons, elem_of_nil in Hk.
    destruct Hk as [->|[->|[->|[->|[]]]]]; vm_compute; reflexivity.
Defined.





Lemma train_model_call_order_witness :
  ∃ (d : gmap string pyval) (seed : pyval) (col : list cell)
    (input_shape num_classes : Z) (epochs batch_size : pyval) (new : list call),
    w_calls (sample_train_model (sample_loaded ∅)).2 =
      (w_calls (sample_loaded ∅) ++ new)%list ∧
    training_calls new `prefix_of`
      training_run_calls d seed col input_shape num_classes epochs batch_size ∧
    ((sample_train_model (sample_loaded ∅)).1 = Ok () →
     training_calls new =
       training_run_calls d seed col input_shape num_classes epochs batch_size).
Proof.
  apply (train_model_call_order sample_leb sample_experiment_id sample_fit sample_keras_check
           1%positive 2%positive (sample_loaded ∅)).
  vm_compute. reflexivity.
Defined.

Lemma train_model_arguments_witness :
  ∃ (epochs batch_size : pyval) (new : list call),
    sample_params !! "epochs" = Some epochs ∧
    sample_params !! "batch_size" = Some batch_size ∧
    w_calls (sample_train_model (sample_loaded ∅)).2 =
      (w_calls (sample_loaded ∅) ++ new)%list ∧
    create_model_calls new =
      [(df_shape1 sample_frame - 1,
        Z.of_nat (length (remove_dups [CInt 7; CInt 5; CInt 7])),
        delete "random_seed" sample_params)] ∧
    Call_fit (mkFitArgs 0.2 epochs batch_size [mkEarlyStopping "val_loss" 10 true]) ∈ new ∧
    ∀ args, Call_fit args ∈ new →
            args = mkFitArgs 0.2 epochs batch_size [mkEarlyStopping "val_loss" 10 true].
Proof.
  apply (train_model_arguments sample_leb sample_experiment_id sample_fit sample_keras_check
           1%positive 2%positive sample_params sample_frame [CInt 7; CInt 5; CInt 7]
           (sample_loaded ∅)).
  - vm_compute. reflexivity.
  - vm_compute. reflexivity.
  - apply (bool_decide_unpack _). vm_compute. exact I.
  - vm_compute. reflexivity.
  - vm_compute. reflexivity.
  - vm_compute. reflexivity.
Defined.

Lemma train_model_keeps_objects_witness :
  w_heap (sample_train_model (sample_loaded ∅)).2 !! 1%positive =
    Some (OFrame sample_frame).
Proof.
  apply (train_model_keeps_objects sample_leb sample_experiment_id sample_fit sample_keras_check
           1%positive 2%positive (sample_loaded ∅)
           (sample_train_model (sample_loaded ∅)).1).
  - vm_compute. reflexivity.
  - vm_compute. reflexivity.
  - discriminate.
Defined.

Lemma main_trains_on_loaded_inputs_witness :
  ∃ (table : fobj) (df : DataFrame) (col : list cell) (text : fobj)
    (sections : gmap string (gmap string pyval)) (d : gmap string pyval)
    (seed : pyval) (input_shape num_classes : Z) (epochs batch_size : pyval)
    (new : list call),
    w_files (sample_world ∅) !! "data/processed/train_processed.csv" = Some table ∧
    sample_read_csv table = Ok df ∧
    df_getitem df "target" = Ok col ∧
    w_files (sample_world ∅) !! "params.yaml" = Some text ∧
    sample_yaml text = Ok sections ∧
    sections !! "train" = Some d ∧
    w_calls (sample_main (sample_world ∅)).2 = (w_calls (sample_world ∅) ++ new)%list ∧
    training_calls new =
      ([Call_logger_info "Loading feature data from data/processed/train_processed.csv";
        Call_read_csv "data/processed/train_processed.csv";
        Call_open "params.yaml" "r"; Call_yaml_safe_load] ++
       training_run_calls d seed col input_shape num_classes epochs batch_size ++
       [Call_logger_info "Model training completed"])%list.
Proof.
  apply (main_trains_on_loaded_inputs sample_leb sample_read_csv sample_yaml
           sample_experiment_id sample_fit sample_keras_check (sample_world ∅)).
  vm_compute. reflexivity.
Defined.
